(** * Form-filling heuristics of the job-application assistant

    A shallow embedding of [auto_apply_enhanced.py] (class
    [EnhancedAutoApply]) and of the page loop of [job_monitor.py]
    ([JobMonitor.apply_to_job]), followed by the properties of the
    question classifier, the answer resolver, the field dispatcher and
    the page-navigation loop.

    Modelling conventions.
    - Python strings are [string]s of ASCII characters; [str.lower] and
      [str.isdigit] act on the ASCII range only.
    - The profile is the dictionary produced by [json.load]: a finite map
      from keys to Python values (strings, integers, booleans, [None]).
      Floats and nested containers are not represented.
    - The browser is an external collaborator.  A page is the data the
      code reads from it (controls, labels, option texts, button labels);
      the commands the code issues are collected in a trace.  A command
      is assumed to be carried out by the browser once issued: in the
      two LinkedIn flows a lookup or a click that raises an exception
      other than [NoSuchElementException], which ends the run with an
      error status, is not represented.  In the Greenhouse flow the
      Submit click may raise. *)

From Stdlib Require Import ZArith String Ascii List Bool Lia.
From Stdlib Require Import Sorted.
From stdpp Require Import base strings gmap list pretty.
Import ListNotations.
Open Scope string_scope.
Open Scope list_scope.

(** ** Python string primitives *)

Module PyStr.

(** [c.lower()] for one ASCII character. *)
Definition lower_ascii (c : ascii) : ascii :=
  let n := nat_of_ascii c in
  if (65 <=? n)%nat && (n <=? 90)%nat then ascii_of_nat (n + 32) else c.

(** [s.lower()] *)
Fixpoint lower (s : string) : string :=
  match s with
  | EmptyString => EmptyString
  | String c t => String (lower_ascii c) (lower t)
  end.

(** [needle in hay] on strings: substring test. *)
Fixpoint contains (needle hay : string) : bool :=
  String.prefix needle hay ||
  match hay with
  | EmptyString => false
  | String _ t => contains needle t
  end.

(** [c.isdigit()] *)
Definition isdigit (c : ascii) : bool :=
  let n := nat_of_ascii c in (48 <=? n)%nat && (n <=? 57)%nat.

(** [''.join(filter(str.isdigit, s))] *)
Fixpoint filter_digits (s : string) : string :=
  match s with
  | EmptyString => EmptyString
  | String c t => if isdigit c then String c (filter_digits t) else filter_digits t
  end.

(** [any(k in hay for k in keys)] *)
Definition contains_any (keys : list string) (hay : string) : bool :=
  existsb (fun k => contains k hay) keys.

End PyStr.

(** ** Python values, exceptions and the profile dictionary *)

Module Py.

Inductive pyval : Type :=
| PStr (s : string)
| PInt (n : Z)
| PBool (b : bool)
| PNone.

(** Truth value of an object in a condition. *)
Definition truthy (v : pyval) : bool :=
  match v with
  | PStr s => negb (String.eqb s "")
  | PInt n => negb (Z.eqb n 0)
  | PBool b => b
  | PNone => false
  end.

(** [str(v)] *)
Definition py_str (v : pyval) : string :=
  match v with
  | PStr s => s
  | PInt n => pretty n
  | PBool true => "True"
  | PBool false => "False"
  | PNone => "None"
  end.

Inductive pyexn : Type := AttributeError | TypeError.

(** Result of a computation that may raise. *)
Inductive res (A : Type) : Type :=
| Ok (a : A)
| Raise (e : pyexn).
Arguments Ok {A} a.
Arguments Raise {A} e.

#[global] Instance res_ret : MRet res := fun A a => Ok a.
#[global] Instance res_bind : MBind res := fun A B k m =>
  match m with
  | Ok a => k a
  | Raise e => Raise e
  end.

(** [v.lower()]: only strings have the method. *)
Definition str_lower (v : pyval) : res string :=
  match v with
  | PStr s => Ok (PyStr.lower s)
  | _ => Raise AttributeError
  end.

(** [''.join(filter(str.isdigit, v))]: of the values represented, only
    strings can be iterated; an integer, a boolean or [None] raises. *)
Definition digits_of (v : pyval) : res string :=
  match v with
  | PStr s => Ok (PyStr.filter_digits s)
  | _ => Raise TypeError
  end.

(** [profile.get(key, dflt)] *)
Definition get (profile : gmap string pyval) (key : string) (dflt : pyval) : pyval :=
  default dflt (profile !! key).

End Py.

(** ** Commands issued to the browser *)

Inductive action : Type :=
| SetValue (v : Py.pyval)      (* field.clear(); field.send_keys(v) *)
| SelectOption (i : nat)       (* select.select_by_index(i) *)
| ClickOption (i : nat)        (* options[i].click() on a radio button *)
| Upload (path : Py.pyval)     (* file_input.send_keys(path) *)
| ClickNext
| ClickReview
| ClickSubmit
| ClickDismiss.

(** ** Field-intent categories *)

Inductive category : Type :=
| Phone | YearsExperience | LinkedinUrl | PortfolioUrl | GithubUrl
| Education | WorkAuthorization | VisaStatus | Gender | Ethnicity
| VeteranStatus | DisabilityStatus
| Relocation | RemotePreference
| Unclassified.

#[global] Instance category_eq_dec : EqDecision category.
Proof. solve_decision. Defined.

(** ** The answer resolver: the [handle_*] methods *)

Module Resolver.
Import PyStr Py.

(** The loop [for i, opt in enumerate(options): if test(opt): ...; return]
    stops at the first index whose option passes the test. *)
Fixpoint first_index {A} (test : A -> bool) (options : list A) : option nat :=
  match options with
  | [] => None
  | opt :: rest =>
      if test opt then Some 0 else S <$> first_index test rest
  end.

(** One [if cond: <search>] statement of a handler.  The search returns
    from the handler as soon as it picks an option; when the condition
    is false or the search picks nothing, control reaches the
    statements that follow. *)
Definition block (cond : bool) (search : res (option nat))
    (following : res (option nat)) : res (option nat) :=
  if cond then
    r ← search;
    match r with
    | Some i => mret (Some i)
    | None => following
    end
  else following.

Section WithProfile.
Variable profile : gmap string pyval.

(** [fill_text_field(field, value)] *)
Definition fill_text_field (value : pyval) : action := SetValue value.

(** [handle_phone_number] *)
Definition handle_phone_number : res action :=
  let phone := get profile "phone" (PStr "") in
  phone_clean ← digits_of phone;
  mret (fill_text_field (PStr phone_clean)).

(** The dictionary literal of [handle_years_experience], in insertion
    order (the order [items()] iterates in). *)
Definition experience_map : list (string * pyval) :=
  [ ("total", get profile "total_years_experience" (PInt 3));
    ("python", get profile "python_years" (PInt 2));
    ("finance", get profile "finance_years" (PInt 3));
    ("trading", get profile "trading_years" (PInt 2));
    ("operations", get profile "operations_years" (PInt 2)) ].

(** The [for key, years in experience_map.items()] loop: the value of
    the first key found in the question. *)
Fixpoint first_years (question_lower : string) (items : list (string * pyval))
  : option pyval :=
  match items with
  | [] => None
  | (key, years) :: rest =>
      if contains key question_lower then Some years
      else first_years question_lower rest
  end.

(** [handle_years_experience] *)
Definition handle_years_experience (question_text : string) : action :=
  let question_lower := lower question_text in
  match first_years question_lower experience_map with
  | Some years => fill_text_field (PStr (py_str years))
  | None =>
      fill_text_field
        (PStr (py_str (get profile "total_years_experience" (PInt 3))))
  end.

(** *** Dropdowns *)

(** The condition guarding each block of [handle_dropdown]. *)
Definition dropdown_keywords (c : category) (question_lower : string) : bool :=
  match c with
  | Education =>
      contains "education" question_lower || contains "degree" question_lower
  | WorkAuthorization =>
      contains "authorized" question_lower || contains "sponsorship" question_lower
  | VisaStatus => contains "visa" question_lower
  | Gender => contains "gender" question_lower
  | Ethnicity =>
      contains "race" question_lower || contains "ethnicity" question_lower
  | VeteranStatus => contains "veteran" question_lower
  | DisabilityStatus =>
      contains "disability" question_lower || contains "disabled" question_lower
  | _ => false
  end.

Definition prefer_not (opt : string) : bool :=
  contains "prefer not" opt || contains "decline" opt.

(** The body of each block of [handle_dropdown]: the option it picks,
    if any.  [options] are the lower-cased option texts. *)
Definition dropdown_search (c : category) (options : list string)
  : res (option nat) :=
  match c with
  | Education =>
      target ← str_lower (get profile "education_level" (PStr "bachelor"));
      mret (first_index (fun opt => contains target opt) options)
  | WorkAuthorization =>
      if truthy (get profile "work_authorized" (PBool true)) then
        mret (first_index
                (fun opt => contains "yes" opt || contains "authorized" opt)
                options)
      else mret None
  | VisaStatus =>
      visa_status ← str_lower (get profile "visa_status" (PStr "citizen"));
      mret (first_index
              (fun opt => contains visa_status opt || contains "citizen" opt)
              options)
  | Gender =>
      if truthy (get profile "gender_disclosure" (PBool false)) then
        let gender := get profile "gender" (PStr "") in
        match options with
        | [] => mret None
        | _ =>
            (* [gender.lower()] is evaluated at each iteration *)
            g ← str_lower gender;
            mret (first_index (fun opt => contains g opt) options)
        end
      else mret (first_index prefer_not options)
  | Ethnicity =>
      if truthy (get profile "ethnicity_disclosure" (PBool false)) then
        let ethnicity := get profile "ethnicity" (PStr "") in
        match options with
        | [] => mret None
        | _ =>
            e ← str_lower ethnicity;
            mret (first_index (fun opt => contains e opt) options)
        end
      else mret (first_index prefer_not options)
  | VeteranStatus =>
      let is_veteran := get profile "veteran" (PBool false) in
      mret (first_index
              (fun opt =>
                 if truthy is_veteran then contains "yes" opt
                 else contains "no" opt || contains "not" opt)
              options)
  | DisabilityStatus => mret (first_index prefer_not options)
  | _ => mret None
  end.

(** The [try] body of [handle_dropdown]: [Ok (Some i)] when
    [select_by_index(i)] is called and [True] returned, [Ok None] when
    the final [return False] is reached. *)
Definition handle_dropdown_body (option_texts : list string)
    (question_text : string) : res (option nat) :=
  let options := map lower option_texts in
  let question_lower := lower question_text in
  block (dropdown_keywords Education question_lower)
        (dropdown_search Education options) $
  block (dropdown_keywords WorkAuthorization question_lower)
        (dropdown_search WorkAuthorization options) $
  block (dropdown_keywords VisaStatus question_lower)
        (dropdown_search VisaStatus options) $
  block (dropdown_keywords Gender question_lower)
        (dropdown_search Gender options) $
  block (dropdown_keywords Ethnicity question_lower)
        (dropdown_search Ethnicity options) $
  block (dropdown_keywords VeteranStatus question_lower)
        (dropdown_search VeteranStatus options) $
  block (dropdown_keywords DisabilityStatus question_lower)
        (dropdown_search DisabilityStatus options) $
  mret None.

(** [handle_dropdown]: the index selected, or [None] when the method
    returns [False] (nothing matched, or an exception was caught). *)
Definition handle_dropdown (option_texts : list string)
    (question_text : string) : option nat :=
  match handle_dropdown_body option_texts question_text with
  | Ok r => r
  | Raise _ => None
  end.

(** *** Radio groups *)

Definition radio_keywords (c : category) (question_lower : string) : bool :=
  match c with
  | WorkAuthorization =>
      contains "authorized" question_lower || contains "sponsorship" question_lower
  | Relocation =>
      contains "relocate" question_lower || contains "relocation" question_lower
  | RemotePreference => contains "remote" question_lower
  | _ => false
  end.

Definition yes_or_no (v : pyval) : string :=
  if truthy v then "yes" else "no".

(** [option_texts] are the [.text] of the radio buttons; the search
    lower-cases each one as it goes. *)
Definition radio_search (c : category) (option_texts : list string)
  : res (option nat) :=
  let search target :=
    mret (first_index (fun text => contains target (lower text)) option_texts) in
  match c with
  | WorkAuthorization =>
      search (yes_or_no (get profile "work_authorized" (PBool true)))
  | Relocation =>
      search (yes_or_no (get profile "willing_to_relocate" (PBool true)))
  | RemotePreference =>
      search (yes_or_no (get profile "open_to_remote" (PBool true)))
  | _ => mret None
  end.

(** [handle_radio_buttons]: the index of the option clicked, if any. *)
Definition handle_radio_buttons (question_text : string)
    (option_texts : list string) : res (option nat) :=
  let question_lower := lower question_text in
  block (radio_keywords WorkAuthorization question_lower)
        (radio_search WorkAuthorization option_texts) $
  block (radio_keywords Relocation question_lower)
        (radio_search Relocation option_texts) $
  block (radio_keywords RemotePreference question_lower)
        (radio_search RemotePreference option_texts) $
  mret None.

End WithProfile.

(** *** Free-text yes/no questions *)

Definition yes_keywords : list string :=
  [ "authorized to work"; "eligible to work"; "legally authorized";
    "able to work"; "willing to relocate"; "available to start";
    "comfortable with" ].

Definition no_keywords : list string :=
  [ "require sponsorship"; "need visa"; "criminal record"; "been terminated" ].

(** A [for keyword in keywords: if keyword in question_lower: return b]
    loop followed by the rest of the function. *)
Fixpoint scan (keywords : list string) (question_lower : string)
    (answer : bool) (otherwise : bool) : bool :=
  match keywords with
  | [] => otherwise
  | keyword :: rest =>
      if contains keyword question_lower then answer
      else scan rest question_lower answer otherwise
  end.

(** [handle_yes_no_question] *)
Definition handle_yes_no_question (question_text : string) : bool :=
  let question_lower := lower question_text in
  scan yes_keywords question_lower true
    (scan no_keywords question_lower false
       true).

End Resolver.

(** ** Pages as the code reads them *)

(** An attribute read with [get_attribute]: [None] when absent. *)
Definition attr_truthy (v : option string) : bool :=
  match v with
  | Some s => negb (String.eqb s "")
  | None => false
  end.

Record TextField : Type := {
  tf_value : option string;   (* get_attribute('value') *)
  tf_id : option string;      (* get_attribute('id') *)
  tf_label : option string    (* text of label[for=id], when there is one *)
}.

Record Dropdown : Type := {
  dd_value : option string;   (* current selection; the code never reads it *)
  dd_id : option string;
  dd_label : option string;
  dd_options : list string    (* [opt.text for opt in select.options] *)
}.

Record RadioGroup : Type := {
  rg_value : option string;   (* checked button; the code never reads it *)
  rg_legend : option string;  (* text of the legend, when there is one *)
  rg_options : list string    (* .text of each radio button *)
}.

Record Page : Type := {
  resume_input : option (option string); (* the file input and its value *)
  cover_input : option (option string);
  text_fields : list TextField;
  dropdowns : list Dropdown;
  radio_groups : list RadioGroup;
  buttons : list string                  (* aria-label of each button *)
}.

(** ** The field dispatcher: the three loops of [fill_linkedin_easy_apply] *)

Module Dispatcher.
Import PyStr Py Resolver.

(** The [if/elif] chain over the label of a text field. *)
Definition classify_text (label_text : string) : category :=
  if contains "phone" label_text then Phone
  else if contains "year" label_text && contains "experience" label_text
       then YearsExperience
  else if contains "linkedin" label_text then LinkedinUrl
  else if contains "website" label_text || contains "portfolio" label_text
       then PortfolioUrl
  else if contains "github" label_text then GithubUrl
  else Unclassified.

(** The label lookup of the text-field loop: lower-cased label text, or
    the empty string when the field has no id or no label. *)
Definition text_label (f : TextField) : string :=
  if attr_truthy (tf_id f) then
    match tf_label f with
    | Some text => lower text
    | None => ""
    end
  else "".

(** The label lookup of the dropdown loop (not lower-cased here). *)
Definition dropdown_label (d : Dropdown) : string :=
  if attr_truthy (dd_id d) then
    match dd_label d with
    | Some text => text
    | None => ""
    end
  else "".

Section WithProfile.
Variable profile : gmap string pyval.

(** The branch taken for a text field with the given label. *)
Definition text_action (label_text : string) : res (option action) :=
  match classify_text label_text with
  | Phone => a ← handle_phone_number profile; mret (Some a)
  | YearsExperience => mret (Some (handle_years_experience profile label_text))
  | LinkedinUrl =>
      mret (Some (fill_text_field (get profile "linkedin_url" (PStr ""))))
  | PortfolioUrl =>
      mret (Some (fill_text_field (get profile "portfolio_url" (PStr ""))))
  | GithubUrl =>
      mret (Some (fill_text_field (get profile "github_url" (PStr ""))))
  | _ => mret None
  end.

(** One iteration of [for field in text_fields]. *)
Definition fill_text (f : TextField) : list action :=
  if attr_truthy (tf_value f) then []          (* skip if already filled *)
  else
    match text_action (text_label f) with
    | Ok (Some a) => [a]
    | Ok None => []
    | Raise _ => []                            (* logged, continue *)
    end.

(** One iteration of [for dropdown in dropdowns]. *)
Definition fill_dropdown (d : Dropdown) : list action :=
  match handle_dropdown profile (dd_options d) (dropdown_label d) with
  | Some i => [SelectOption i]
  | None => []
  end.

(** One iteration of [for group in radio_groups]. *)
Definition fill_radio (g : RadioGroup) : list action :=
  match rg_legend g with
  | None => []                                 (* no legend: continue *)
  | Some question_text =>
      match handle_radio_buttons profile question_text (rg_options g) with
      | Ok (Some i) => [ClickOption i]
      | Ok None => []
      | Raise _ => []
      end
  end.

(** The three loops, in the order the code runs them. *)
Definition dispatch (pg : Page) : list action :=
  flat_map fill_text (text_fields pg) ++
  flat_map fill_dropdown (dropdowns pg) ++
  flat_map fill_radio (radio_groups pg).

(** [upload_resume] / [upload_cover_letter], guarded as in the loop. *)
Definition upload (input : option (option string)) (path_key : string)
  : list action :=
  match input with
  | None => []
  | Some value =>
      if attr_truthy value then []
      else
        let path := get profile path_key (PStr "") in
        if truthy path then [Upload path] else []
  end.

(** Everything done on a page before the buttons are probed. *)
Definition process_page (pg : Page) : list action :=
  upload (resume_input pg) "resume_path" ++
  upload (cover_input pg) "cover_letter_path" ++
  dispatch pg.

End WithProfile.
End Dispatcher.

(** ** Page navigation *)

(** A job posting: whether its Easy Apply button becomes clickable (and
    the exception text when it does not), and the page shown after each
    number of forward clicks. *)
Record Job : Type := {
  open_error : option string;
  site : nat -> Page
}.

Module Navigation.
Import PyStr Py Dispatcher.

(** [find_element(By.CSS_SELECTOR, "button[...]")] succeeds. *)
Definition has_button (selector : string -> bool) (pg : Page) : bool :=
  existsb selector (buttons pg).

(** [button[aria-label*='Continue'], button[aria-label*='Next']] *)
Definition next_selector (aria_label : string) : bool :=
  contains "Continue" aria_label || contains "Next" aria_label.

(** [button[aria-label*='Review']] *)
Definition review_selector (aria_label : string) : bool :=
  contains "Review" aria_label.

(** [button[aria-label*='Submit'], button[aria-label*='Submit application']] *)
Definition submit_selector (aria_label : string) : bool :=
  contains "Submit" aria_label || contains "Submit application" aria_label.

Record Run : Type := {
  outcome : bool * string;      (* the returned (success, status) *)
  page_count : nat;             (* value of page_count at return *)
  shown : nat;                  (* index of the page left on screen *)
  commands : list action        (* every command issued, in order *)
}.

Definition max_pages : nat := 10.

Section WithProfile.
Variable profile : gmap string pyval.
Variable pages : nat -> Page.

(** [while page_count < max_pages], with [remaining] standing for
    [max_pages - page_count].  [cur] is the index of the page on
    screen and [done] the commands issued so far. *)
Fixpoint page_loop (remaining page_count cur : nat) (done : list action) : Run :=
  match remaining with
  | 0 =>
      {| outcome := (false, "Max Pages Reached");
         page_count := page_count; shown := cur; commands := done |}
  | S remaining' =>
      let page_count := S page_count in
      let pg := pages cur in
      let done := done ++ process_page profile pg in
      if has_button next_selector pg then
        page_loop remaining' page_count (S cur) (done ++ [ClickNext])
      else if has_button review_selector pg then
        page_loop remaining' page_count (S cur) (done ++ [ClickReview])
      else if has_button submit_selector pg then
        if truthy (get profile "auto_submit" (PBool false)) then
          {| outcome := (true, "Applied");
             page_count := page_count; shown := cur;
             commands := done ++ [ClickSubmit] |}
        else
          {| outcome := (true, "Ready to Submit - Confirmation Required");
             page_count := page_count; shown := cur; commands := done |}
      else
        (* break: falls out of the loop to the statements after it *)
        {| outcome := (false, "Max Pages Reached");
           page_count := page_count; shown := cur; commands := done |}
  end.
End WithProfile.

(** [fill_linkedin_easy_apply] *)
Definition fill_linkedin_easy_apply (profile : gmap string pyval) (job : Job) : Run :=
  match open_error job with
  | Some e =>
      {| outcome := (false, "Error: " +:+ e);
         page_count := 0; shown := 0; commands := [] |}
  | None => page_loop profile (site job) max_pages 0 0 []
  end.

End Navigation.

(** ** The secondary flow: [JobMonitor.apply_to_job] *)

Module Monitor.
Import Py.

Definition has_button (aria_label : string) (pg : Page) : bool :=
  existsb (String.eqb aria_label) (buttons pg).

Record Run : Type := {
  status : string;              (* job_data['status'] afterwards *)
  applied : bool;               (* job_data appended to jobs_applied *)
  iterations : nat;             (* loop bodies entered *)
  shown : nat;
  commands : list action
}.

Definition max_pages : nat := 5.

Section WithConfig.
Variable config : gmap string pyval.
Variable pages : nat -> Page.

(** [for page in range(max_pages)], with [remaining] iterations left. *)
Fixpoint for_pages (remaining : nat) (r : Run) : Run :=
  match remaining with
  | 0 => r
  | S remaining' =>
      let pg := pages (shown r) in
      let r := {| status := status r; applied := applied r;
                  iterations := S (iterations r);
                  shown := shown r; commands := commands r |} in
      if has_button "Continue to next step" pg then
        for_pages remaining'
          {| status := status r; applied := applied r;
             iterations := iterations r;
             shown := S (shown r); commands := commands r ++ [ClickNext] |}
      else if has_button "Submit application" pg then
        if truthy (get config "confirm_before_submit" (PBool true)) then r
        else
          {| status := "Applied"; applied := true;
             iterations := iterations r;
             shown := shown r; commands := commands r ++ [ClickSubmit] |}
      else r
  end.

(** The [try: ... click Dismiss ... except: pass] after the loop. *)
Definition close_modal (r : Run) : Run :=
  if has_button "Dismiss" (pages (shown r)) then
    {| status := status r; applied := applied r; iterations := iterations r;
       shown := shown r; commands := commands r ++ [ClickDismiss] |}
  else r.
End WithConfig.

(** [apply_to_job], on a job whose status is [status0]. *)
Definition apply_to_job (config : gmap string pyval) (job : Job)
    (status0 : string) : Run :=
  match open_error job with
  | Some _ =>
      {| status := "Manual Application Required"; applied := false;
         iterations := 0; shown := 0; commands := [] |}
  | None =>
      close_modal (site job)
        (for_pages config (site job) max_pages
           {| status := status0; applied := false; iterations := 0;
              shown := 0; commands := [] |})
  end.

End Monitor.

(** ** The rule tables of the specification

    The classifier the specification describes: the category of a label
    is the first one, in priority order, whose keywords all occur in it. *)

Module Rules.
Import Py Resolver.

Definition dropdown_order : list category :=
  [ Education; WorkAuthorization; VisaStatus; Gender; Ethnicity;
    VeteranStatus; DisabilityStatus ].

Definition radio_order : list category :=
  [ WorkAuthorization; Relocation; RemotePreference ].

Definition classify_by (keywords : category -> string -> bool)
    (order : list category) (question_lower : string) : category :=
  match List.find (fun c => keywords c question_lower) order with
  | Some c => c
  | None => Unclassified
  end.

Definition classify_dropdown : string -> category :=
  classify_by dropdown_keywords dropdown_order.

Definition classify_radio : string -> category :=
  classify_by radio_keywords radio_order.

(** Rules tried in order; a rule whose keywords match and whose search
    picks an option ends the pass, any other rule hands over to the
    next one. *)
Fixpoint fall_through (keywords : category -> string -> bool)
    (search : category -> list string -> res (option nat))
    (order : list category) (question_lower : string)
    (options : list string) : res (option nat) :=
  match order with
  | [] => Ok None
  | c :: rest =>
      if keywords c question_lower then
        match search c options with
        | Ok (Some i) => Ok (Some i)
        | Ok None => fall_through keywords search rest question_lower options
        | Raise e => Raise e
        end
      else fall_through keywords search rest question_lower options
  end.

(** Rules that were tried before the selecting one: each either did
    not match or found nothing. *)
Definition passed_over (keywords : category -> string -> bool)
    (search : category -> list string -> res (option nat))
    (question_lower : string) (options : list string)
    (pre : list category) : Prop :=
  Forall (fun c => keywords c question_lower = true ->
                   search c options = Ok None) pre.

End Rules.

(** [needle] occurs in [hay] as a contiguous substring. *)
Definition occurs_in (needle hay : string) : Prop :=
  exists pre post, hay = pre +:+ needle +:+ post.

(** [i] is the position of the first element of [l] passing [test]. *)
Definition is_first {A} (test : A -> bool) (l : list A) (i : nat) : Prop :=
  (exists x, l !! i = Some x /\ test x = true) /\
  (forall j y, j < i -> l !! j = Some y -> test y = false).

(** Commands that move between pages or close the dialog. *)
Definition is_navigation (a : action) : bool :=
  match a with
  | ClickNext | ClickReview | ClickSubmit | ClickDismiss => true
  | _ => false
  end.

(** Every control of the page already carries a non-empty value. *)
Definition all_filled (pg : Page) : bool :=
  forallb (fun f => attr_truthy (tf_value f)) (text_fields pg) &&
  forallb (fun d => attr_truthy (dd_value d)) (dropdowns pg) &&
  forallb (fun g => attr_truthy (rg_value g)) (radio_groups pg).

(** The spec's [SetValue]/[SelectOption] actions: typing into a field,
    selecting a dropdown option, choosing a radio option. *)
Definition is_fill (a : action) : bool :=
  match a with
  | SetValue _ | SelectOption _ | ClickOption _ => true
  | _ => false
  end.

(** A page exposing a Continue/Next button and neither Review nor Submit. *)
Definition only_continue (pg : Page) : Prop :=
  Navigation.has_button Navigation.next_selector pg = true /\
  Navigation.has_button Navigation.review_selector pg = false /\
  Navigation.has_button Navigation.submit_selector pg = false.

(** A page exposing a Submit button and neither Continue/Next nor Review. *)
Definition only_submit (pg : Page) : Prop :=
  Navigation.has_button Navigation.next_selector pg = false /\
  Navigation.has_button Navigation.review_selector pg = false /\
  Navigation.has_button Navigation.submit_selector pg = true.

(** A page on which none of the three probes finds a button. *)
Definition no_button (pg : Page) : Prop :=
  Navigation.has_button Navigation.next_selector pg = false /\
  Navigation.has_button Navigation.review_selector pg = false /\
  Navigation.has_button Navigation.submit_selector pg = false.

(** The button a forward click lands on: [find_element] returns the
    first match in document order, of the Continue/Next probe or, when
    that probe finds nothing, of the Review probe. *)
Definition forward_button (pg : Page) : option string :=
  match List.find Navigation.next_selector (buttons pg) with
  | Some aria_label => Some aria_label
  | None => List.find Navigation.review_selector (buttons pg)
  end.

(** No button of the page matches the Submit selector together with the
    Continue/Next or the Review selector. *)
Definition submit_distinct (pg : Page) : bool :=
  forallb
    (fun aria_label =>
       negb (Navigation.submit_selector aria_label) ||
       negb (Navigation.next_selector aria_label ||
             Navigation.review_selector aria_label))
    (buttons pg).

#[global] Instance pyval_eq_dec : EqDecision Py.pyval.
Proof. solve_decision. Defined.

#[global] Instance action_eq_dec : EqDecision action.
Proof. solve_decision. Defined.

(** Number of times the command [a] occurs in a trace. *)
Definition issued (a : action) (trace : list action) : nat :=
  count_occ action_eq_dec trace a.

(** ** Sample inputs *)

Module Samples.
Import Py.

Definition python_question : string := "How many years of python experience?".

Definition profile_with_python : gmap string pyval :=
  <["python_years" := PInt 4]> (<["total_years_experience" := PInt 6]> ∅).

Definition profile_without_python : gmap string pyval :=
  <["total_years_experience" := PInt 6]> ∅.

Definition disclosing_profile : gmap string pyval :=
  <["gender_disclosure" := PBool true]> (<["ethnicity_disclosure" := PBool true]> ∅).

Definition unauthorized_profile : gmap string pyval :=
  <["work_authorized" := PBool false]> ∅.

Definition wish_options : list string := ["Yes"; "No"; "I don't wish to answer"].

Definition page_with (fields : list TextField) (selects : list Dropdown)
    (groups : list RadioGroup) (labels : list string) : Page :=
  {| resume_input := None; cover_input := None;
     text_fields := fields; dropdowns := selects; radio_groups := groups;
     buttons := labels |}.

Definition blank_page : Page := page_with [] [] [] [].
Definition continue_page : Page := page_with [] [] [] ["Continue to next step"].
Definition submit_page : Page := page_with [] [] [] ["Submit application"].

(** Two pages with a Continue button, then pages with a Submit button. *)
Definition three_page_job : Job :=
  {| open_error := None;
     site := fun n => if (n <? 2)%nat then continue_page else submit_page |}.

(** Every page offers Continue and nothing else. *)
Definition endless_job : Job :=
  {| open_error := None; site := fun _ => continue_page |}.

(** The first page offers no button at all. *)
Definition dead_end_job : Job :=
  {| open_error := None; site := fun _ => blank_page |}.

(** A page all of whose controls already hold a value. *)
Definition filled_text : TextField :=
  {| tf_value := Some "555 0100"; tf_id := Some "phone"; tf_label := Some "Phone" |}.

Definition filled_dropdown : Dropdown :=
  {| dd_value := Some "No"; dd_id := Some "vet";
     dd_label := Some "Veteran status"; dd_options := ["Yes"; "No"] |}.

Definition filled_radio : RadioGroup :=
  {| rg_value := Some "No"; rg_legend := Some "Open to remote work?";
     rg_options := ["Yes"; "No"] |}.

Definition filled_page : Page :=
  page_with [filled_text] [filled_dropdown] [filled_radio] ["Continue"].

End Samples.

(** ** More Python string primitives *)

Module PyText.

(** [c.isspace()] on the ASCII range: tab, line feed, vertical tab, form
    feed, carriage return, the four separators 28-31, and space. *)
Definition isspace (c : ascii) : bool :=
  let n := nat_of_ascii c in
  ((9 <=? n)%nat && (n <=? 13)%nat) || ((28 <=? n)%nat && (n <=? 32)%nat).

(** [s.lstrip()] *)
Fixpoint lstrip (s : string) : string :=
  match s with
  | EmptyString => EmptyString
  | String c t => if isspace c then lstrip t else s
  end.

(** [s.rstrip()] *)
Fixpoint rstrip (s : string) : string :=
  match s with
  | EmptyString => EmptyString
  | String c t =>
      let t' := rstrip t in
      if isspace c && String.eqb t' "" then EmptyString else String c t'
  end.

(** [s.strip()] *)
Definition strip (s : string) : string := rstrip (lstrip s).

(** [s.replace(' ', '%20')] *)
Fixpoint replace_spaces (s : string) : string :=
  match s with
  | EmptyString => EmptyString
  | String c t =>
      if Ascii.eqb c " " then "%20" +:+ replace_spaces t
      else String c (replace_spaces t)
  end.

(** [sep.join(parts)] *)
Fixpoint join (sep : string) (parts : list string) : string :=
  match parts with
  | [] => ""
  | [part] => part
  | part :: rest => part +:+ sep +:+ join sep rest
  end.

End PyText.

(** ** The Greenhouse flow: [fill_greenhouse_application] *)

Module Greenhouse.
Import Py Resolver.

(** What the code looks up on the application page. *)
Record Form : Type := {
  ids : list string;        (* the id attributes present on the page *)
  names : list string;      (* the name attributes present on the page *)
  resume_file_input : bool; (* input[type='file'][name='resume'] is present *)
  submit_click_raises : bool (* [submit_btn.click()] raises an exception *)
}.

Section WithProfile.
Variable profile : gmap string pyval.

(** The dictionary literal [fields_map], in insertion order. *)
Definition fields_map : list (string * pyval) :=
  [ ("first_name", get profile "first_name" (PStr ""));
    ("last_name", get profile "last_name" (PStr ""));
    ("email", get profile "email" (PStr ""));
    ("phone", get profile "phone" (PStr "")) ].

(** One iteration of [for field_name, value in fields_map.items()]: the
    element is looked up by id, then by name, else skipped. *)
Definition fill_field (form : Form) (entry : string * pyval) : list action :=
  let '(field_name, value) := entry in
  if bool_decide (field_name ∈ ids form) then [fill_text_field value]
  else if bool_decide (field_name ∈ names form) then [fill_text_field value]
  else [].

(** [upload_resume(file_input)] *)
Definition upload_resume : list action :=
  let resume_path := get profile "resume_path" (PStr "") in
  if truthy resume_path then [Upload resume_path] else [].

(** [fill_greenhouse_application]: the returned pair and the commands
    issued.  [page_error] is the text of the exception raised while the
    page is loaded, if any.  The Submit click sits in a [try] whose bare
    [except] passes: when the click raises, the function falls through to
    the final [return]. *)
Definition fill_greenhouse_application (page_error : option string)
    (form : Form) : (bool * string) * list action :=
  match page_error with
  | Some e => ((false, "Error: " +:+ e), [])
  | None =>
      let done := flat_map (fill_field form) fields_map in
      let done :=
        done ++ (if resume_file_input form then upload_resume else []) in
      if truthy (get profile "auto_submit" (PBool false))
         && bool_decide ("submit_app" ∈ ids form)
      then
        if submit_click_raises form
        then ((true, "Ready to Submit - Manual Review Required"),
              done ++ [ClickSubmit])
        else ((true, "Applied"), done ++ [ClickSubmit])
      else ((true, "Ready to Submit - Manual Review Required"), done)
  end.

End WithProfile.
End Greenhouse.

(** ** Job tracking: [search_linkedin_jobs], [search_company_website]
    and the search loops of [run] in [job_monitor.py] *)

(** The dictionary built for each listing.  The last two keys are only
    ever set by the integrated monitor. *)
Record JobData : Type := {
  jd_title : string;
  jd_company : string;
  jd_location : string;
  jd_url : option string;     (* the href attribute; [None] when absent *)
  jd_source : string;
  jd_easy_apply : bool;
  jd_keyword : string;
  jd_found_date : string;
  jd_status : string;
  jd_contacts_found : option nat;
  jd_contacts : option (list string)
}.

Definition with_status (status : string) (j : JobData) : JobData :=
  {| jd_title := jd_title j; jd_company := jd_company j;
     jd_location := jd_location j; jd_url := jd_url j;
     jd_source := jd_source j; jd_easy_apply := jd_easy_apply j;
     jd_keyword := jd_keyword j; jd_found_date := jd_found_date j;
     jd_status := status;
     jd_contacts_found := jd_contacts_found j; jd_contacts := jd_contacts j |}.

(** A search-result card as the code reads it. *)
Record JobCard : Type := {
  card_title : option (string * option string); (* title link: text, href *)
  card_company : option string;                 (* company link text *)
  card_location : option string;                (* first metadata item text *)
  card_apply_methods : nat;                     (* apply-method items found *)
  card_seen_at : string                         (* the clock when processed *)
}.

Module Tracker.
Import Py PyStr PyText.

Record State : Type := {
  jobs_found : list JobData;
  jobs_applied : list JobData;
  clicks : list action        (* commands issued by the applications *)
}.

Definition initial : State :=
  {| jobs_found := []; jobs_applied := []; clicks := [] |}.

(** What the monitor reads from its configuration and from the web. *)
Record World : Type := {
  config : gmap string pyval;
  keywords : list string;
  locations : list string;
  companies_to_monitor : list (string * string); (* name, careers URL *)
  auto_apply : pyval;
  listing : string -> option (list JobCard);     (* cards behind a search URL *)
  posting : option string -> Job;                (* the page behind a job URL *)
  careers : string -> option string;             (* source of a careers page *)
  careers_seen_at : string -> string             (* the clock when it is read *)
}.

(** The body of the per-card [try]: [None] when an element is missing. *)
Definition parse_card (keyword : string) (card : JobCard) : option JobData :=
  match card_title card, card_company card, card_location card with
  | Some (title_text, href), Some company_text, Some location_text =>
      Some {| jd_title := strip title_text;
              jd_company := strip company_text;
              jd_location := strip location_text;
              jd_url := href;
              jd_source := "LinkedIn";
              jd_easy_apply := (0 <? card_apply_methods card)%nat;
              jd_keyword := keyword;
              jd_found_date := card_seen_at card;
              jd_status := "Found";
              jd_contacts_found := None; jd_contacts := None |}
  | _, _, _ => None
  end.

(** [any(j['url'] == url for j in self.jobs_found)] *)
Definition tracked (url : option string) (found : list JobData) : bool :=
  existsb (fun j => bool_decide (jd_url j = url)) found.

Section WithWorld.
Variable w : World.

(** One iteration of [for card in job_cards[:20]].  The dictionary is
    appended to [jobs_found] before [apply_to_job] changes its status;
    being the same object, the entry in [jobs_found] shows the change. *)
Definition track_card (keyword : string) (st : State) (card : JobCard) : State :=
  match parse_card keyword card with
  | None => st
  | Some job_data =>
      if tracked (jd_url job_data) (jobs_found st) then st
      else if truthy (auto_apply w) && jd_easy_apply job_data then
        let r := Monitor.apply_to_job (config w) (posting w (jd_url job_data))
                   (jd_status job_data) in
        let job_data := with_status (Monitor.status r) job_data in
        {| jobs_found := jobs_found st ++ [job_data];
           jobs_applied :=
             if Monitor.applied r then jobs_applied st ++ [job_data]
             else jobs_applied st;
           clicks := clicks st ++ Monitor.commands r |}
      else
        {| jobs_found := jobs_found st ++ [job_data];
           jobs_applied := jobs_applied st;
           clicks := clicks st |}
  end.

Definition search_url (keyword location : string) : string :=
  "https://www.linkedin.com/jobs/search/?keywords=" +:+ replace_spaces keyword
  +:+ "&location=" +:+ replace_spaces location +:+ "&f_AL=true".

(** [search_linkedin_jobs] *)
Definition search_linkedin_jobs (keyword location : string) (st : State) : State :=
  match listing w (search_url keyword location) with
  | None => st                                   (* logged by the outer except *)
  | Some job_cards => fold_left (track_card keyword) (take 20 job_cards) st
  end.

(** [search_company_website] *)
Definition search_company_website (company_name careers_url : string)
    (st : State) : State :=
  match careers w careers_url with
  | None => st
  | Some page_source =>
      let page_text := lower page_source in
      let found_keywords :=
        List.filter (fun k => contains (lower k) page_text) (keywords w) in
      match found_keywords with
      | [] => st
      | _ =>
          let job_data :=
            {| jd_title := "Potential match at " +:+ company_name;
               jd_company := company_name;
               jd_location := "See website";
               jd_url := Some careers_url;
               jd_source := "Company Website";
               jd_easy_apply := false;
               jd_keyword := join ", " found_keywords;
               jd_found_date := careers_seen_at w careers_url;
               jd_status := "Manual Review Required";
               jd_contacts_found := None; jd_contacts := None |} in
          if tracked (Some careers_url) (jobs_found st) then st
          else {| jobs_found := jobs_found st ++ [job_data];
                  jobs_applied := jobs_applied st;
                  clicks := clicks st |}
      end
  end.

(** The two search loops of [run]. *)
Definition run_searches (st : State) : State :=
  let st :=
    fold_left
      (fun st keyword =>
         fold_left (fun st location => search_linkedin_jobs keyword location st)
           (locations w) st)
      (keywords w) st in
  fold_left
    (fun st '(company_name, careers_url) =>
       search_company_website company_name careers_url st)
    (companies_to_monitor w) st.

End WithWorld.
End Tracker.

(** ** Networking contacts: [linkedin_network_finder.py] *)

Module NetworkFinder.
Import Py PyStr PyText.

(** The dictionary built for each person found.  The score is set by
    [rank_connections]. *)
Record Person : Type := {
  p_name : string;
  p_title : string;
  p_company : string;
  p_location : string;
  p_profile_url : string;
  p_mutual_connections : nat;
  p_is_connected : bool;
  p_found_date : string;
  p_networking_score : option nat
}.

(** [determine_target_titles] *)
Definition determine_target_titles (job_title : string) : list string :=
  let job_title_lower := lower job_title in
  if contains "senior" job_title_lower && contains "analyst" job_title_lower
  then ["manager"; "senior manager"; "director"]
  else if contains "analyst" job_title_lower
  then ["senior analyst"; "lead analyst"; "manager"; "associate manager"]
  else if contains "associate" job_title_lower
  then ["senior associate"; "assistant vice president"; "vice president"; "manager"]
  else if contains "specialist" job_title_lower
  then ["senior specialist"; "manager"; "team lead"]
  else ["manager"; "senior manager"; "director"].

(** The [relevant_keywords] chosen from the job title in
    [is_good_connection]. *)
Definition relevant_keywords (job_lower : string) : list string :=
  if contains "operations" job_lower || contains "trade" job_lower
  then ["operations"; "trade"; "trading"; "settlement"; "middle office"]
  else if contains "quant" job_lower
  then ["quant"; "research"; "trading"; "strategy"]
  else if contains "analyst" job_lower
  then ["analyst"; "analysis"; "research"]
  else [].

(** [is_good_connection] *)
Definition is_good_connection (person : Person) (job_title : string) : bool :=
  let title := lower (p_title person) in
  if p_is_connected person then false
  else if contains "recruiter" title || contains "talent acquisition" title
  then false
  else if contains_any ["ceo"; "cfo"; "chief"; "founder"; "president"] title
          && negb (contains_any ["vp"; "vice president"] title)
  then false
  else
    let job_lower := lower job_title in
    let has_relevant_keywords := contains_any (relevant_keywords job_lower) title in
    has_relevant_keywords || (0 <? p_mutual_connections person)%nat.

(** The score computed for one person in [rank_connections]. *)
Definition score_of (person : Person) (job_title : string) : nat :=
  let score := 0 in
  let title := lower (p_title person) in
  let score := score + p_mutual_connections person * 10 in
  let job_lower := lower job_title in
  let score :=
    if contains "operations" job_lower then
      let score := if contains "operations" title then score + 20 else score in
      let score :=
        if contains "trade" title || contains "trading" title
        then score + 15 else score in
      if contains "manager" title then score + 10 else score
    else score in
  let score :=
    if contains "analyst" job_lower then
      let score :=
        if contains "senior" title || contains "lead" title
        then score + 15 else score in
      if contains "manager" title then score + 20 else score
    else score in
  let score :=
    if contains_any ["manager"; "senior"; "lead"; "director"] title
    then score + 15 else score in
  if contains_any ["vp"; "vice president"; "head of"] title
  then score + 10 else score.

Definition with_score (job_title : string) (person : Person) : Person :=
  {| p_name := p_name person; p_title := p_title person;
     p_company := p_company person; p_location := p_location person;
     p_profile_url := p_profile_url person;
     p_mutual_connections := p_mutual_connections person;
     p_is_connected := p_is_connected person;
     p_found_date := p_found_date person;
     p_networking_score := Some (score_of person job_title) |}.

Definition score (person : Person) : nat :=
  default 0 (p_networking_score person).

(** [people.sort(key=..., reverse=True)]: a stable sort by decreasing
    score; a person stays ahead of the later ones with the same score. *)
Fixpoint insert_ranked (person : Person) (ranked : list Person) : list Person :=
  match ranked with
  | [] => [person]
  | other :: rest =>
      if (score other <=? score person)%nat then person :: other :: rest
      else other :: insert_ranked person rest
  end.

Definition sort_ranked (people : list Person) : list Person :=
  foldr insert_ranked [] people.

(** [rank_connections] *)
Definition rank_connections (people : list Person) (job_title : string)
  : list Person :=
  sort_ranked (map (with_score job_title) people).

(** The dictionary [departments] of [extract_department], in insertion
    order. *)
Definition departments : list (string * list string) :=
  [ ("operations", ["operations"; "ops"]);
    ("trading", ["trading"; "trade"; "trader"]);
    ("risk", ["risk"]);
    ("technology", ["technology"; "engineering"; "developer"]);
    ("quantitative", ["quant"; "quantitative"]);
    ("research", ["research"]) ].

Fixpoint first_department (title_lower : string)
    (items : list (string * list string)) : string :=
  match items with
  | [] => "this field"
  | (dept, keywords) :: rest =>
      if contains_any keywords title_lower then dept
      else first_department title_lower rest
  end.

(** [extract_department] *)
Definition extract_department (title : string) : string :=
  first_department (lower title) departments.

(** The characters of [s] up to the first one passing [stop]. *)
Fixpoint take_until (stop : ascii -> bool) (s : string) : string :=
  match s with
  | EmptyString => EmptyString
  | String c t => if stop c then EmptyString else String c (take_until stop t)
  end.

(** [s.split()[0]]: the first whitespace-separated word; [None] stands for
    the [IndexError] raised when there is none. *)
Definition first_word (s : string) : option string :=
  match lstrip s with
  | EmptyString => None
  | word => Some (take_until isspace word)
  end.

(** [generate_connection_message]; [None] stands for the [IndexError]
    raised while the templates are built for a person whose name has no
    word. *)
Definition generate_connection_message (person : Person) (job_title : string)
  : option string :=
  first_name ← first_word (p_name person);
  let template :=
    "Hi " +:+ first_name +:+ ", I recently applied for the " +:+ job_title
    +:+ " position at " +:+ p_company person
    +:+ " and was impressed by the team's work in "
    +:+ extract_department (p_title person)
    +:+ ". I'd love to connect and learn more about your experience there." in
  let message :=
    if (0 <? p_mutual_connections person)%nat then
      "Hi " +:+ first_name +:+ ", I noticed we have "
      +:+ pretty (p_mutual_connections person) +:+ " mutual connection"
      +:+ (if (1 <? p_mutual_connections person)%nat then "s" else "")
      +:+ ". I recently applied for the " +:+ job_title +:+ " role at "
      +:+ p_company person
      +:+ " and would love to connect and learn about your experience there."
    else template in
  Some (if (295 <? String.length message)%nat
        then String.substring 0 292 message +:+ "..."
        else message).

(** A people-search result card as the code reads it. *)
Record ResultCard : Type := {
  rc_name : option (string * option string); (* name link: text, href *)
  rc_subtitle : option string;               (* primary subtitle text *)
  rc_location : option string;               (* secondary subtitle text *)
  rc_insight : option string;                (* simple insight text *)
  rc_badge : option string;                  (* badge text *)
  rc_seen_at : string                        (* the clock when processed *)
}.

(** [re.search(r'(\d+)', text)]: the first run of digits. *)
Fixpoint first_digits (text : string) : option string :=
  match text with
  | EmptyString => None
  | String c t =>
      if isdigit c then Some (take_until (fun d => negb (isdigit d)) text)
      else first_digits t
  end.

(** [int(digits)] for a string of decimal digits. *)
Definition int_of_digits (digits : string) : nat :=
  fold_left (fun n c => 10 * n + (nat_of_ascii c - 48))
    (list_ascii_of_string digits) 0.

(** [extract_person_data]: [None] when an exception was caught. *)
Definition extract_person_data (card : ResultCard) (company_name : string)
  : option Person :=
  match rc_name card with
  | Some (name_text, Some href) =>
      match rc_subtitle card with
      | Some title_text =>
          let location :=
            match rc_location card with
            | Some text => strip text
            | None => "Unknown"
            end in
          let mutual_connections :=
            match rc_insight card with
            | Some mutual_text =>
                if contains "mutual connection" (lower mutual_text) then
                  match first_digits mutual_text with
                  | Some digits => int_of_digits digits
                  | None => 0
                  end
                else 0
            | None => 0
            end in
          let is_connected :=
            match rc_badge card with
            | Some text => contains "1st" text || contains "connected" (lower text)
            | None => false
            end in
          Some {| p_name := strip name_text;
                  p_title := strip title_text;
                  p_company := company_name;
                  p_location := location;
                  p_profile_url :=
                    take_until (fun c => Ascii.eqb c "?") href;
                  p_mutual_connections := mutual_connections;
                  p_is_connected := is_connected;
                  p_found_date := rc_seen_at card;
                  p_networking_score := None |}
      | None => None
      end
  | _ => None
  end.

(** What a people search shows: the page may fail to load (caught by the
    outer [except]), the cards may fail to be read (caught by the inner
    one), or the cards are there. *)
Inductive SearchPage : Type :=
| PageFailed
| CardsFailed
| Cards (cards : list ResultCard).

Section WithSearch.
Variable people_search : string -> SearchPage.

Definition people_search_url (query : string) : string :=
  "https://www.linkedin.com/search/results/people/?keywords="
  +:+ replace_spaces query.

(** [if department_hint:] *)
Definition hint_given (department_hint : option string) : option string :=
  match department_hint with
  | Some hint => if String.eqb hint "" then None else Some hint
  | None => None
  end.

Definition search_queries (company_name job_title : string)
    (department_hint : option string) : list string :=
  let target_titles := determine_target_titles job_title in
  match hint_given department_hint with
  | Some hint =>
      map (fun title => title +:+ " " +:+ hint +:+ " at " +:+ company_name)
        (take 2 target_titles)
  | None =>
      map (fun title => title +:+ " at " +:+ company_name) (take 2 target_titles)
  end.

(** [for card in result_cards[:3]].  Once the limit is reached the loop
    is left; here the remaining cards are passed over. *)
Definition scan_cards (company_name job_title : string) (max_results : nat)
    (cards : list ResultCard) (people_found : list Person) : list Person :=
  fold_left
    (fun people_found card =>
       if (max_results <=? length people_found)%nat then people_found
       else
         match extract_person_data card company_name with
         | Some person_data =>
             if is_good_connection person_data job_title
             then people_found ++ [person_data]
             else people_found
         | None => people_found
         end)
    (take 3 cards) people_found.

(** [for query in search_queries]: [None] when a page failed to load. *)
Fixpoint run_queries (company_name job_title : string) (max_results : nat)
    (queries : list string) (people_found : list Person)
  : option (list Person) :=
  match queries with
  | [] => Some people_found
  | query :: rest =>
      if (max_results <=? length people_found)%nat then Some people_found
      else
        match people_search (people_search_url query) with
        | PageFailed => None
        | CardsFailed =>
            run_queries company_name job_title max_results rest people_found
        | Cards cards =>
            run_queries company_name job_title max_results rest
              (scan_cards company_name job_title max_results cards people_found)
        end
  end.

(** [find_people_at_company] *)
Definition find_people_at_company (company_name job_title : string)
    (department_hint : option string) (max_results : nat) : list Person :=
  match run_queries company_name job_title max_results
          (search_queries company_name job_title department_hint) [] with
  | Some people_found => take 2 (rank_connections people_found job_title)
  | None => []
  end.

(** The [department_hint] of [find_and_save_networking_contacts]. *)
Definition department_hint_of (job_title : string) : option string :=
  let job_lower := lower job_title in
  if contains "operations" job_lower || contains "trade" job_lower
  then Some "operations"
  else if contains "quant" job_lower then Some "quantitative"
  else if contains "risk" job_lower then Some "risk"
  else None.

(** [find_and_save_networking_contacts]: the people returned, or the text
    of the [KeyError] raised by the summary loop when one of the first two
    people has no [connection_message], which is the case when
    [save_networking_targets] stopped at a person whose message could not
    be generated.  The CSV file written by [save_networking_targets] and
    the three keys it adds to each person are not represented. *)
Definition find_and_save_networking_contacts (job_data : JobData)
  : list Person + string :=
  let company_name := jd_company job_data in
  let job_title := jd_title job_data in
  let people :=
    find_people_at_company company_name job_title
      (department_hint_of job_title) 5 in
  if forallb
       (fun person =>
          bool_decide (is_Some (generate_connection_message person
                                  (jd_title job_data))))
       (take 2 people)
  then inl (take 2 people)
  else inr "'connection_message'".

End WithSearch.
End NetworkFinder.

(** ** The integrated monitor: [job_monitor_integrated.py] *)

Module Integrated.
Import Py PyStr PyText.

Section WithPeople.
(** The people handed back by the network finder; only their name is
    read here. *)
Variable Person : Type.
Variable person_name : Person -> string.

Record State : Type := {
  jobs_found : list JobData;
  jobs_applied : list JobData;
  networking_contacts : list Person;
  clicks : list action          (* commands issued by the applications *)
}.

Definition initial : State :=
  {| jobs_found := []; jobs_applied := []; networking_contacts := [];
     clicks := [] |}.

Record World : Type := {
  profile : gmap string pyval;
  config : gmap string pyval;
  keywords : list string;
  locations : list string;
  auto_apply : pyval;
  listing : string -> option (list JobCard);
  posting : option string -> Job;
  (** [network_finder.find_and_save_networking_contacts(job_data)]: the
      people returned, or the text of the exception raised. *)
  find_contacts : JobData -> list Person + string
}.

Definition with_contacts (found : option nat) (names : option (list string))
    (j : JobData) : JobData :=
  {| jd_title := jd_title j; jd_company := jd_company j;
     jd_location := jd_location j; jd_url := jd_url j;
     jd_source := jd_source j; jd_easy_apply := jd_easy_apply j;
     jd_keyword := jd_keyword j; jd_found_date := jd_found_date j;
     jd_status := jd_status j;
     jd_contacts_found := found; jd_contacts := names |}.

(** The effect of one [apply_and_network] call. *)
Record Applied : Type := {
  job : JobData;              (* the dictionary afterwards *)
  recorded : bool;            (* appended to jobs_applied *)
  contacts : list Person;     (* appended to networking_contacts *)
  issued_commands : list action
}.

Section WithWorld.
Variable w : World.

(** [apply_and_network] *)
Definition apply_and_network (job_data : JobData) : Applied :=
  let r := Navigation.fill_linkedin_easy_apply (profile w)
             (posting w (jd_url job_data)) in
  let '(success, status) := Navigation.outcome r in
  let job_data := with_status status job_data in
  if success then
    if truthy (get (config w) "find_networking_contacts" (PBool true)) then
      match find_contacts w job_data with
      | inl [] =>
          {| job := with_contacts (Some 0) (jd_contacts job_data) job_data;
             recorded := true; contacts := [];
             issued_commands := Navigation.commands r |}
      | inl people =>
          {| job := with_contacts (Some (length people))
                      (Some (map person_name people)) job_data;
             recorded := true; contacts := people;
             issued_commands := Navigation.commands r |}
      | inr e =>
          {| job := with_status ("Error: " +:+ e) job_data;
             recorded := true; contacts := [];
             issued_commands := Navigation.commands r |}
      end
    else
      {| job := job_data; recorded := true; contacts := [];
         issued_commands := Navigation.commands r |}
  else
    {| job := job_data; recorded := false; contacts := [];
       issued_commands := Navigation.commands r |}.

(** One iteration of [for card in job_cards[:20]].  The dictionary put in
    [jobs_found] and in [jobs_applied] is the one [apply_and_network]
    updates, so both lists show it as it is afterwards. *)
Definition track_card (keyword : string) (st : State) (card : JobCard) : State :=
  match Tracker.parse_card keyword card with
  | None => st
  | Some job_data =>
      if Tracker.tracked (jd_url job_data) (jobs_found st) then st
      else if truthy (auto_apply w) && jd_easy_apply job_data then
        let a := apply_and_network job_data in
        {| jobs_found := jobs_found st ++ [job a];
           jobs_applied :=
             if recorded a then jobs_applied st ++ [job a] else jobs_applied st;
           networking_contacts := networking_contacts st ++ contacts a;
           clicks := clicks st ++ issued_commands a |}
      else
        {| jobs_found := jobs_found st ++ [job_data];
           jobs_applied := jobs_applied st;
           networking_contacts := networking_contacts st;
           clicks := clicks st |}
  end.

(** [search_linkedin_jobs] *)
Definition search_linkedin_jobs (keyword location : string) (st : State) : State :=
  match listing w (Tracker.search_url keyword location) with
  | None => st
  | Some job_cards => fold_left (track_card keyword) (take 20 job_cards) st
  end.

(** The search loop of [run]. *)
Definition run_searches (st : State) : State :=
  fold_left
    (fun st keyword =>
       fold_left (fun st location => search_linkedin_jobs keyword location st)
         (locations w) st)
    (keywords w) st.

End WithWorld.
End WithPeople.

Arguments jobs_found {Person} _.
Arguments jobs_applied {Person} _.
Arguments networking_contacts {Person} _.
Arguments clicks {Person} _.
Arguments initial {Person}.
Arguments profile {Person} _.
Arguments config {Person} _.
Arguments keywords {Person} _.
Arguments locations {Person} _.
Arguments auto_apply {Person} _.
Arguments listing {Person} _ _.
Arguments posting {Person} _ _.
Arguments find_contacts {Person} _ _.
Arguments job {Person} _.
Arguments recorded {Person} _.
Arguments contacts {Person} _.
Arguments issued_commands {Person} _.
Arguments apply_and_network {Person} person_name w job_data.
Arguments track_card {Person} person_name w keyword st card.
Arguments search_linkedin_jobs {Person} person_name w keyword location st.
Arguments run_searches {Person} person_name w st.

End Integrated.

(** The tracking lists are consistent: no URL is tracked twice, and the
    applied jobs are exactly the tracked jobs whose status is "Applied",
    in the same order. *)
Definition consistent (st : Tracker.State) : Prop :=
  NoDup (map jd_url (Tracker.jobs_found st)) /\
  Tracker.jobs_applied st =
    List.filter (fun j => String.eqb (jd_status j) "Applied")
      (Tracker.jobs_found st).

(** [st'] tracks everything [st] tracks, unchanged and in the same order,
    followed by at most [n] new jobs. *)
Definition extends_by (n : nat) (st st' : Tracker.State) : Prop :=
  exists new, Tracker.jobs_found st' = Tracker.jobs_found st ++ new /\
              length new <= n.

(** ** Sample listings *)

Module TrackerSamples.
Import Py Samples Tracker.

Definition analyst_card : JobCard :=
  {| card_title := Some ("  Trade Operations Analyst ", Some "https://jobs.example/1");
     card_company := Some "Acme Capital";
     card_location := Some "New York, NY";
     card_apply_methods := 1;
     card_seen_at := "2024-05-01 09:00:00" |}.

(** The same posting listed a second time. *)
Definition repeated_card : JobCard :=
  {| card_title := Some ("Trade Operations Analyst (repost)", Some "https://jobs.example/1");
     card_company := Some "Acme Capital";
     card_location := Some "Remote";
     card_apply_methods := 0;
     card_seen_at := "2024-05-01 09:00:01" |}.

(** A card without a company link. *)
Definition broken_card : JobCard :=
  {| card_title := Some ("Settlements Associate", Some "https://jobs.example/2");
     card_company := None;
     card_location := Some "Boston, MA";
     card_apply_methods := 1;
     card_seen_at := "2024-05-01 09:00:02" |}.

Definition sample_world (apply submit_config : pyval) : World :=
  {| config := <["confirm_before_submit" := submit_config]> ∅;
     keywords := ["trade operations"; "settlements"];
     locations := ["New York"];
     companies_to_monitor := [("Acme Capital", "https://acme.example/careers")];
     auto_apply := apply;
     listing := fun _ => Some [analyst_card; repeated_card; broken_card];
     posting := fun _ => three_page_job;
     careers := fun _ => Some "<h1>Careers</h1> Open roles: Trade Operations lead";
     careers_seen_at := fun _ => "2024-05-01 09:05:00" |}.

Definition watching_world : World := sample_world (PBool false) (PBool true).
Definition applying_world : World := sample_world (PBool true) (PBool false).

End TrackerSamples.

(** What holds of every person the people searches retain. *)
Definition retained (company_name job_title : string)
    (person : NetworkFinder.Person) : Prop :=
  NetworkFinder.is_good_connection person job_title = true /\
  NetworkFinder.p_company person = company_name.

(** ** Sample people searches *)

Module NetworkSamples.
Import Py Samples TrackerSamples NetworkFinder.

Definition manager_card : ResultCard :=
  {| rc_name := Some ("  Dana Smith ", Some "https://people.example/in/dana?trk=search");
     rc_subtitle := Some "Operations Manager";
     rc_location := None;
     rc_insight := Some "3 mutual connections";
     rc_badge := Some "2nd";
     rc_seen_at := "2024-05-01 09:10:00" |}.

Definition recruiter_card : ResultCard :=
  {| rc_name := Some ("Lee Wong", Some "https://people.example/in/lee");
     rc_subtitle := Some "Senior Recruiter, Operations";
     rc_location := Some " New York ";
     rc_insight := Some "12 mutual connections";
     rc_badge := None;
     rc_seen_at := "2024-05-01 09:10:01" |}.

(** A result whose name link shows no text. *)
Definition nameless_card : ResultCard :=
  {| rc_name := Some ("  ", Some "https://people.example/in/hidden");
     rc_subtitle := Some "VP Trading Operations";
     rc_location := Some "Chicago";
     rc_insight := None;
     rc_badge := None;
     rc_seen_at := "2024-05-01 09:10:02" |}.

Definition named_results (url : string) : SearchPage :=
  Cards [recruiter_card; manager_card].

Definition nameless_results (url : string) : SearchPage :=
  Cards [nameless_card; recruiter_card].

Definition analyst_job : JobData :=
  {| jd_title := "Trade Operations Analyst";
     jd_company := "Acme Capital";
     jd_location := "New York, NY";
     jd_url := Some "https://jobs.example/1";
     jd_source := "LinkedIn";
     jd_easy_apply := true;
     jd_keyword := "trade operations";
     jd_found_date := "2024-05-01 09:00:00";
     jd_status := "Found";
     jd_contacts_found := None; jd_contacts := None |}.

Definition long_title_person : Person :=
  {| p_name := "Alexandria Montgomery-Fitzgerald";
     p_title := "Managing Director, Global Head of Trade Operations, Settlement and Middle Office Transformation";
     p_company := "Acme Capital International Holdings and Asset Management Partners";
     p_location := "London";
     p_profile_url := "https://people.example/in/alexandria";
     p_mutual_connections := 0;
     p_is_connected := false;
     p_found_date := "2024-05-01 09:10:03";
     p_networking_score := None |}.

Definition long_job_title : string :=
  "Senior Trade Operations and Settlements Analyst, Derivatives and Structured Products Middle Office".

(** The integrated monitor over a given people search; the profile does
    not set auto-submit. *)
Definition integrated_world (search : string -> SearchPage)
  : Integrated.World Person :=
  {| Integrated.profile := ∅;
     Integrated.config := ∅;
     Integrated.keywords := ["trade operations"];
     Integrated.locations := ["New York"];
     Integrated.auto_apply := PBool true;
     Integrated.listing := fun _ => Some [analyst_card; repeated_card; broken_card];
     Integrated.posting := fun _ => three_page_job;
     Integrated.find_contacts := find_and_save_networking_contacts search |}.

End NetworkSamples.

(** * Properties *)

(** ** Strings *)

Section StringFacts.
Import PyStr.

Lemma prefix_iff (needle hay : string) :
  String.prefix needle hay = true <-> exists post, hay = needle +:+ post.
Proof.
  revert hay. induction needle as [|c n IH]; intros [|d h]; simpl.
  - split; [intros _; by exists "" | done].
  - split; [intros _; by exists (String d h) | done].
  - split; [done | intros [post H]; discriminate H].
  - destruct (ascii_dec c d) as [->|Hne].
    + rewrite IH. split; intros [post H]; exists post.
      * by rewrite H.
      * by injection H.
    + split; [done | intros [post H]; injection H; congruence].
Qed.

Lemma contains_unfold (needle hay : string) :
  contains needle hay =
  String.prefix needle hay ||
  match hay with
  | EmptyString => false
  | String _ t => contains needle t
  end.
Proof. by destruct hay. Qed.

Lemma contains_iff (needle hay : string) :
  contains needle hay = true <-> occurs_in needle hay.
Proof.
  unfold occurs_in. split.
  - induction hay as [|c h IH]; rewrite contains_unfold;
      intros H; apply orb_true_iff in H as [H|H].
    + apply prefix_iff in H as [post H]. by exists "", post.
    + done.
    + apply prefix_iff in H as [post H]. by exists "", post.
    + destruct (IH H) as (pre & post & ->). by exists (String c pre), post.
  - intros (pre & post & ->). induction pre as [|c pre IH].
    + rewrite contains_unfold. apply orb_true_iff. left.
      apply prefix_iff. by exists post.
    + rewrite contains_unfold. apply orb_true_iff. by right.
Qed.

Lemma contains_false_iff (needle hay : string) :
  contains needle hay = false <-> ~ occurs_in needle hay.
Proof.
  rewrite <- contains_iff. by destruct (contains needle hay).
Qed.

Lemma contains_empty (hay : string) : contains "" hay = true.
Proof. by destruct hay. Qed.

Lemma lower_ascii_idemp (c : ascii) : lower_ascii (lower_ascii c) = lower_ascii c.
Proof.
  unfold lower_ascii.
  destruct ((65 <=? nat_of_ascii c)%nat && (nat_of_ascii c <=? 90)%nat) eqn:E.
  - apply andb_true_iff in E as [E1 E2].
    apply Nat.leb_le in E1, E2.
    rewrite nat_ascii_embedding by lia.
    replace ((nat_of_ascii c + 32 <=? 90)%nat) with false
      by (symmetry; apply Nat.leb_gt; lia).
    by rewrite andb_false_r.
  - by rewrite E.
Qed.

Lemma lower_idemp (s : string) : lower (lower s) = lower s.
Proof.
  induction s as [|c s IH]; simpl; [done|].
  by rewrite lower_ascii_idemp, IH.
Qed.

End StringFacts.

(** ** The option search *)

Section SearchFacts.
Import Resolver.
Context {A : Type} (test : A -> bool).

Lemma first_index_Some (l : list A) (i : nat) :
  first_index test l = Some i <-> is_first test l i.
Proof.
  unfold is_first. revert i. induction l as [|x l IH]; intros i; simpl.
  - split; [done | by intros [[y [H _]] _]].
  - destruct (test x) eqn:Hx.
    + split.
      * intros [= <-]. split; [by exists x | intros j y Hj; lia].
      * intros [_ Hmin]. destruct i as [|i]; [done|].
        specialize (Hmin 0 x). simpl in Hmin.
        rewrite Hmin in Hx; [done | lia | done].
    + destruct (first_index test l) as [k|] eqn:Hk; simpl.
      * split.
        -- intros [= <-]. destruct (proj1 (IH k) eq_refl) as [Hex Hmin].
           split; [done|]. intros [|j] y Hj Hy.
           ++ simpl in Hy. by injection Hy as <-.
           ++ apply (Hmin j y); [lia | done].
        -- intros [Hex Hmin]. destruct i as [|i].
           ++ destruct Hex as [y [[= <-] Hy]]. congruence.
           ++ f_equal. assert (Some k = Some i) as [= ->]; [|done].
              apply IH. split; [done|].
              intros j y Hj Hy. apply (Hmin (S j) y); [lia | done].
      * split; [done|]. intros [Hex Hmin]. destruct i as [|i].
        -- destruct Hex as [y [[= <-] Hy]]. congruence.
        -- assert (None = Some i) as H; [|done].
           apply IH. split; [done|].
           intros j y Hj Hy. apply (Hmin (S j) y); [lia | done].
Qed.

Lemma first_index_None (l : list A) :
  first_index test l = None <-> Forall (fun x => test x = false) l.
Proof.
  induction l as [|x l IH]; simpl.
  - split; [by constructor | done].
  - destruct (test x) eqn:Hx.
    + split; [done|]. intros H. inversion H; congruence.
    + destruct (first_index test l); simpl.
      * split; [done|]. intros H. inversion H as [|? ? _ Hl]; subst.
        by apply IH in Hl.
      * split; [|done]. intros _. constructor; [done | by apply IH].
Qed.

Lemma first_index_map {B} (f : B -> A) (l : list B) :
  first_index test (map f l) = first_index (fun x => test (f x)) l.
Proof.
  induction l as [|x l IH]; simpl; [done|]. by rewrite IH.
Qed.

Lemma first_index_head (x : A) (l : list A) :
  test x = true -> first_index test (x :: l) = Some 0.
Proof. simpl. by intros ->. Qed.

End SearchFacts.

(** ** The classifier tables *)

Section ClassifierFacts.
Import Py Resolver Rules.

(** Walk down the rule list, one keyword test at a time. *)
Local Ltac by_rule_order q :=
  unfold classify_dropdown, classify_by, dropdown_order; cbn [List.find];
  repeat match goal with
         | |- context [if dropdown_keywords ?c q then _ else _] =>
             destruct (dropdown_keywords c q); [done|]
         end;
  done.

(** What it means for a dropdown label to fall in each category. *)
Lemma classify_dropdown_gender (q : string) :
  classify_dropdown q = Gender ->
  dropdown_keywords Education q = false /\
  dropdown_keywords WorkAuthorization q = false /\
  dropdown_keywords VisaStatus q = false /\
  dropdown_keywords Gender q = true.
Proof. by_rule_order q. Qed.

Lemma classify_dropdown_ethnicity (q : string) :
  classify_dropdown q = Ethnicity ->
  dropdown_keywords Education q = false /\
  dropdown_keywords WorkAuthorization q = false /\
  dropdown_keywords VisaStatus q = false /\
  dropdown_keywords Gender q = false /\
  dropdown_keywords Ethnicity q = true.
Proof. by_rule_order q. Qed.

Lemma classify_dropdown_disability (q : string) :
  classify_dropdown q = DisabilityStatus ->
  dropdown_keywords Education q = false /\
  dropdown_keywords WorkAuthorization q = false /\
  dropdown_keywords VisaStatus q = false /\
  dropdown_keywords Gender q = false /\
  dropdown_keywords Ethnicity q = false /\
  dropdown_keywords VeteranStatus q = false /\
  dropdown_keywords DisabilityStatus q = true.
Proof. by_rule_order q. Qed.

(** A disability-status dropdown is resolved by the decline search alone. *)
Lemma handle_dropdown_disability profile options question :
  classify_dropdown (PyStr.lower question) = DisabilityStatus ->
  handle_dropdown profile options question =
  first_index (fun text => prefer_not (PyStr.lower text)) options.
Proof.
  intros H. apply classify_dropdown_disability in H
    as (E1 & E2 & E3 & E4 & E5 & E6 & E7).
  unfold handle_dropdown, handle_dropdown_body, block.
  cbv zeta. rewrite E1, E2, E3, E4, E5, E6, E7.
  cbn [dropdown_search]. rewrite first_index_map.
  by destruct (first_index _ options).
Qed.

End ClassifierFacts.

(** ** Disability-status dropdowns *)

Section Disability.
Import PyStr Py Resolver Rules Samples.

(** C1, as stated, fails: no option of
    ["Yes"; "No"; "I don't wish to answer"] contains "prefer not" or
    "decline", so index 2 is not selected. *)
Lemma C1_wish_option_not_selected :
  classify_dropdown (lower "Disability status") = DisabilityStatus /\
  handle_dropdown ∅ wish_options "Disability status" <> Some 2.
Proof. split; [reflexivity | by vm_compute]. Qed.

(** C1, amended: for every profile and every list of options, a
    disability-status dropdown is resolved to the first option whose
    lower-cased text contains "prefer not" or "decline", and to nothing
    when there is no such option; the profile plays no part.  With
    options ["Yes"; "No"; "I don't wish to answer"] nothing is
    selected. *)
Theorem C1_disability_selects_first_decline
    (profile : gmap string pyval) (options : list string) (question : string) :
  classify_dropdown (lower question) = DisabilityStatus ->
  (forall i, handle_dropdown profile options question = Some i <->
             is_first (fun text => prefer_not (lower text)) options i) /\
  (handle_dropdown profile options question = None <->
   Forall (fun text => prefer_not (lower text) = false) options) /\
  handle_dropdown profile wish_options question = None.
Proof.
  intros H. rewrite !(handle_dropdown_disability _ _ _ H).
  split; [|split].
  - intros i. apply first_index_Some.
  - apply first_index_None.
  - reflexivity.
Qed.

Lemma C1_disability_witness :
  handle_dropdown disclosing_profile ["Yes"; "No"; "I prefer not to answer"]
    "Disability status" = Some 2 /\
  handle_dropdown disclosing_profile wish_options "Disability status" = None.
Proof.
  destruct (C1_disability_selects_first_decline disclosing_profile
              ["Yes"; "No"; "I prefer not to answer"] "Disability status"
              eq_refl) as (Hsome & _ & Hwish).
  split; [|exact Hwish].
  apply Hsome. split.
  - exists "I prefer not to answer". split; reflexivity.
  - intros [|[|j]] y Hj Hy; [by injection Hy as <- | by injection Hy as <- | lia].
Defined.

End Disability.

(** ** Free-text yes/no questions *)

Section YesNo.
Import PyStr Resolver.

Lemma scan_contains_any keywords q answer otherwise :
  scan keywords q answer otherwise =
  if contains_any keywords q then answer else otherwise.
Proof.
  induction keywords as [|k ks IH]; simpl; [done|].
  destruct (contains k q); simpl; [done | apply IH].
Qed.

(** C2, as stated, fails: "require sponsorship" does not occur in
    "do you require visa sponsorship?" (nor does any other default-no
    phrase), so the answer is the default [true]. *)
Lemma C2_visa_sponsorship_is_yes :
  handle_yes_no_question "Do you require visa sponsorship?" <> false.
Proof. by vm_compute. Qed.

(** C2, amended: the label is scanned against the default-yes phrases
    (true on any match), then against the default-no phrases (false on
    a match), and any other label yields true.
    "Are you legally authorized to work in this country?" yields true,
    "Do you require sponsorship?" yields false, and both
    "Do you require visa sponsorship?" and "Do you enjoy puzzles?" match
    no phrase and yield true. *)
Theorem C2_yes_no_scan :
  (forall question,
     handle_yes_no_question question =
     if contains_any yes_keywords (lower question) then true
     else if contains_any no_keywords (lower question) then false
     else true) /\
  handle_yes_no_question "Are you legally authorized to work in this country?" = true /\
  handle_yes_no_question "Do you require sponsorship?" = false /\
  (contains_any yes_keywords (lower "Do you require visa sponsorship?") = false /\
   contains_any no_keywords (lower "Do you require visa sponsorship?") = false /\
   handle_yes_no_question "Do you require visa sponsorship?" = true) /\
  (contains_any yes_keywords (lower "Do you enjoy puzzles?") = false /\
   contains_any no_keywords (lower "Do you enjoy puzzles?") = false /\
   handle_yes_no_question "Do you enjoy puzzles?" = true).
Proof.
  split; [|by vm_compute].
  intros question. unfold handle_yes_no_question.
  by rewrite !scan_contains_any.
Qed.

End YesNo.

(** ** Years of experience *)

Section Years.
Import PyStr Py Resolver Dispatcher Samples.

Lemma first_years_python (profile : gmap string pyval) :
  first_years (lower python_question) (experience_map profile) =
  Some (get profile "python_years" (PInt 2)).
Proof. reflexivity. Qed.

(** C3, as stated, fails: without a [python_years] key the answer is the
    default of that key, "2", not the total "6". *)
Lemma C3_missing_python_years_not_total :
  profile_without_python !! "python_years" = None /\
  handle_years_experience profile_without_python python_question
  <> SetValue (PStr "6").
Proof. split; [reflexivity | by vm_compute]. Qed.

(** C3, amended: for the label "How many years of python experience?",
    a profile with [python_years = 4] yields [SetValue "4"] whatever its
    total is, and a profile with no [python_years] key yields
    [SetValue "2"], the default of that key, whatever its total is.
    The text-field loop reaches this answer for that label. *)
Theorem C3_python_years (profile : gmap string pyval) :
  (profile !! "python_years" = Some (PInt 4) ->
   handle_years_experience profile python_question = SetValue (PStr "4") /\
   text_action profile (lower python_question) = Ok (Some (SetValue (PStr "4")))) /\
  (profile !! "python_years" = None ->
   handle_years_experience profile python_question = SetValue (PStr "2") /\
   text_action profile (lower python_question) = Ok (Some (SetValue (PStr "2")))).
Proof.
  assert (classify_text (lower python_question) = YearsExperience) as Hc
    by reflexivity.
  unfold text_action. rewrite Hc.
  unfold handle_years_experience. rewrite lower_idemp, first_years_python.
  unfold get. split; intros ->; split; reflexivity.
Qed.

Lemma C3_python_years_witness :
  handle_years_experience profile_with_python python_question
    = SetValue (PStr "4") /\
  handle_years_experience profile_without_python python_question
    = SetValue (PStr "2").
Proof.
  split.
  - apply (proj1 (C3_python_years profile_with_python)). reflexivity.
  - apply (proj2 (C3_python_years profile_without_python)). reflexivity.
Defined.

End Years.

(** ** Text-field classification *)

Section TextClassifier.
Import PyStr Dispatcher.

(** C9, as stated, fails: a label with "year" and "experience" that
    also contains "phone" is a phone field, the rule tested first. *)
Lemma C9_phone_rule_comes_first :
  let label := lower "Years of experience in phone sales" in
  contains "year" label = true /\ contains "experience" label = true /\
  classify_text label <> YearsExperience.
Proof. by vm_compute. Qed.

(** C9, amended: a lower-cased label is classified years-experience
    exactly when "year" and "experience" both occur in it and "phone"
    does not.  In particular every label with both words and without
    "phone" is years-experience, and a label without "year" never is. *)
Theorem C9_years_experience_conjunctive (label : string) :
  let label_text := lower label in
  (classify_text label_text = YearsExperience <->
   occurs_in "year" label_text /\ occurs_in "experience" label_text /\
   ~ occurs_in "phone" label_text) /\
  (occurs_in "experience" label_text -> ~ occurs_in "year" label_text ->
   classify_text label_text <> YearsExperience).
Proof.
  intros label_text.
  assert (classify_text label_text = YearsExperience <->
          occurs_in "year" label_text /\ occurs_in "experience" label_text /\
          ~ occurs_in "phone" label_text) as Hiff.
  { rewrite <- !contains_iff. unfold classify_text.
    destruct (contains "phone" label_text); [intuition congruence|].
    destruct (contains "year" label_text), (contains "experience" label_text);
      simpl; try intuition congruence.
    all: destruct (contains "linkedin" label_text); [intuition congruence|].
    all: destruct (contains "website" label_text || contains "portfolio" label_text);
      [intuition congruence|].
    all: destruct (contains "github" label_text); intuition congruence. }
  split; [exact Hiff|].
  intros _ Hyear Hc. apply Hiff in Hc. tauto.
Qed.

Lemma C9_years_experience_witness :
  classify_text (lower "Experience (YEARS) with Python") = YearsExperience /\
  classify_text (lower "Describe your experience") <> YearsExperience.
Proof.
  split.
  - apply (proj1 (C9_years_experience_conjunctive "Experience (YEARS) with Python")).
    split; [|split].
    + by exists "experience (", "s) with python".
    + by exists "", " (years) with python".
    + apply contains_false_iff. reflexivity.
  - apply (proj2 (C9_years_experience_conjunctive "Describe your experience")).
    + by exists "describe your ", "".
    + apply contains_false_iff. reflexivity.
Defined.

End TextClassifier.

(** ** Optional-disclosure dropdowns *)

Section Disclosure.
Import PyStr Py Resolver Rules Samples.

Lemma search_empty_target (options : list string) :
  options <> [] ->
  first_index (fun opt => contains "" opt) options = Some 0.
Proof.
  destruct options as [|o os]; [done|]. intros _.
  apply first_index_head, contains_empty.
Qed.

Lemma gender_search_absent (profile : gmap string pyval) (options : list string) :
  options <> [] ->
  truthy (get profile "gender_disclosure" (PBool false)) = true ->
  profile !! "gender" = None ->
  dropdown_search profile Gender options = Ok (Some 0).
Proof.
  intros Hne Hflag Habsent. cbn [dropdown_search].
  rewrite Hflag. unfold get. rewrite Habsent.
  destruct options as [|o os] eqn:E; [done|]. rewrite <- E in *.
  change (Ok (first_index (fun opt => contains "" opt) options) = Ok (Some 0)).
  by rewrite search_empty_target.
Qed.

Lemma ethnicity_search_absent (profile : gmap string pyval) (options : list string) :
  options <> [] ->
  truthy (get profile "ethnicity_disclosure" (PBool false)) = true ->
  profile !! "ethnicity" = None ->
  dropdown_search profile Ethnicity options = Ok (Some 0).
Proof.
  intros Hne Hflag Habsent. cbn [dropdown_search].
  rewrite Hflag. unfold get. rewrite Habsent.
  destruct options as [|o os] eqn:E; [done|]. rewrite <- E in *.
  change (Ok (first_index (fun opt => contains "" opt) options) = Ok (Some 0)).
  by rewrite search_empty_target.
Qed.

(** C10: with the disclosure flag set and the value to disclose absent,
    the search target is the empty string, which occurs in every option
    text, so the first option of a non-empty gender (resp. ethnicity)
    dropdown is selected. *)
Theorem C10_absent_value_selects_first
    (profile : gmap string pyval) (options : list string) (question : string) :
  options <> [] ->
  (classify_dropdown (lower question) = Gender ->
   truthy (get profile "gender_disclosure" (PBool false)) = true ->
   profile !! "gender" = None ->
   handle_dropdown profile options question = Some 0) /\
  (classify_dropdown (lower question) = Ethnicity ->
   truthy (get profile "ethnicity_disclosure" (PBool false)) = true ->
   profile !! "ethnicity" = None ->
   handle_dropdown profile options question = Some 0).
Proof.
  intros Hne.
  assert (map lower options <> []) as Hne' by by destruct options.
  split; intros Hc Hflag Habsent.
  - apply classify_dropdown_gender in Hc as (E1 & E2 & E3 & E4).
    unfold handle_dropdown, handle_dropdown_body, block. cbv zeta.
    by rewrite E1, E2, E3, E4, gender_search_absent.
  - apply classify_dropdown_ethnicity in Hc as (E1 & E2 & E3 & E4 & E5).
    unfold handle_dropdown, handle_dropdown_body, block. cbv zeta.
    rewrite E1, E2, E3, E4, E5. by rewrite ethnicity_search_absent.
Qed.

Lemma C10_absent_value_witness :
  handle_dropdown disclosing_profile ["Male"; "Female"; "Decline to state"]
    "Gender" = Some 0 /\
  handle_dropdown disclosing_profile ["Asian"; "Decline to state"]
    "Race / ethnicity" = Some 0.
Proof.
  split.
  - apply (proj1 (C10_absent_value_selects_first disclosing_profile
                    ["Male"; "Female"; "Decline to state"] "Gender"
                    ltac:(discriminate)));
      reflexivity.
  - apply (proj2 (C10_absent_value_selects_first disclosing_profile
                    ["Asian"; "Decline to state"] "Race / ethnicity"
                    ltac:(discriminate)));
      reflexivity.
Defined.

End Disclosure.

(** ** Rule order in dropdowns and radio groups *)

Section RuleOrder.
Import PyStr Py Resolver Dispatcher Rules Samples.

Section FallThrough.
Variable keywords : category -> string -> bool.
Variable search : category -> list string -> res (option nat).
Variables (q : string) (opts : list string).

Lemma fall_through_Some (order : list category) (i : nat) :
  fall_through keywords search order q opts = Ok (Some i) <->
  exists pre c post,
    order = pre ++ c :: post /\ keywords c q = true /\
    search c opts = Ok (Some i) /\ passed_over keywords search q opts pre.
Proof.
  unfold passed_over. induction order as [|c0 rest IH]; cbn [fall_through].
  - split; [done|]. intros (pre & c & post & H & _). by destruct pre.
  - split.
    + destruct (keywords c0 q) eqn:Hk;
        [destruct (search c0 opts) as [[j|]|e] eqn:Hs|].
      * intros [= ->]. exists [], c0, rest. by repeat split.
      * intros H. apply IH in H as (pre & c & post & -> & Hc & Hi & Hpre).
        exists (c0 :: pre), c, post. repeat split; try done.
        by constructor.
      * done.
      * intros H. apply IH in H as (pre & c & post & -> & Hc & Hi & Hpre).
        exists (c0 :: pre), c, post. repeat split; try done.
        constructor; [congruence | done].
    + intros (pre & c & post & Ho & Hc & Hi & Hpre).
      destruct pre as [|c1 pre]; simpl in Ho; injection Ho as <- ->.
      * by rewrite Hc, Hi.
      * apply Forall_cons in Hpre as [H0 Hpre].
        assert (fall_through keywords search (pre ++ c :: post) q opts
                = Ok (Some i)) as Hrest
          by (apply IH; by exists pre, c, post).
        destruct (keywords c0 q); [|done]. by rewrite H0.
Qed.

Lemma fall_through_first (order : list category) (c : category) (i : nat) :
  List.find (fun c => keywords c q) order = Some c ->
  search c opts = Ok (Some i) ->
  fall_through keywords search order q opts = Ok (Some i).
Proof.
  intros Hfind Hs. induction order as [|c0 rest IH]; [done|].
  cbn [List.find fall_through] in *.
  destruct (keywords c0 q).
  - injection Hfind as ->. by rewrite Hs.
  - by apply IH.
Qed.
End FallThrough.

Lemma handle_dropdown_fall_through profile options question :
  handle_dropdown_body profile options question =
  fall_through dropdown_keywords (dropdown_search profile) dropdown_order
    (lower question) (map lower options).
Proof.
  unfold handle_dropdown_body, block, dropdown_order. cbn [fall_through].
  repeat match goal with
         | |- context [dropdown_keywords ?c (lower question)] =>
             destruct (dropdown_keywords c (lower question))
         end;
    repeat match goal with
           | |- context [dropdown_search profile ?c ?o] =>
               destruct (dropdown_search profile c o) as [[?|]|?]
           end; reflexivity.
Qed.

Lemma handle_radio_fall_through profile question options :
  handle_radio_buttons profile question options =
  fall_through radio_keywords (radio_search profile) radio_order
    (lower question) options.
Proof.
  unfold handle_radio_buttons, block, radio_order. cbn [fall_through].
  repeat match goal with
         | |- context [radio_keywords ?c (lower question)] =>
             destruct (radio_keywords c (lower question))
         end;
    repeat match goal with
           | |- context [radio_search profile ?c ?o] =>
               destruct (radio_search profile c o) as [[?|]|?]
           end; reflexivity.
Qed.

Lemma handle_dropdown_Some profile options question i :
  handle_dropdown profile options question = Some i <->
  handle_dropdown_body profile options question = Ok (Some i).
Proof.
  unfold handle_dropdown.
  destruct (handle_dropdown_body profile options question) as [[j|]|e];
    split; congruence.
Qed.

(** C4, as stated, fails, for dropdowns and for radio groups: the first
    rule whose keywords match may find no option, and then a later
    rule's policy selects one. *)
Lemma C4_later_rule_selects :
  (classify_dropdown (lower "Gender and veteran status") = Gender /\
   dropdown_search ∅ Gender (map lower ["Yes"; "No"]) = Ok None /\
   dropdown_search ∅ VeteranStatus (map lower ["Yes"; "No"]) = Ok (Some 1) /\
   handle_dropdown ∅ ["Yes"; "No"] "Gender and veteran status" = Some 1) /\
  (classify_radio (lower "Authorized to work remotely?") = WorkAuthorization /\
   radio_search unauthorized_profile WorkAuthorization ["Yes"] = Ok None /\
   radio_search unauthorized_profile RemotePreference ["Yes"] = Ok (Some 0) /\
   handle_radio_buttons unauthorized_profile "Authorized to work remotely?" ["Yes"]
     = Ok (Some 0)).
Proof. by vm_compute. Qed.

(** C4, amended: for every dropdown and radio-group control the rules
    are tried in the stated order (dropdowns: education,
    work-authorization, visa-status, gender, ethnicity, veteran-status,
    disability-status; radio groups: work-authorization, relocation,
    remote-preference) and at most one option is selected.  The
    selection is made by the first rule whose keywords match and whose
    policy finds an option: every rule before it either did not match
    or found nothing.  When the policy of the first matching rule finds
    an option, that option is the one selected. *)
Theorem C4_first_selecting_rule_wins
    (profile : gmap string pyval) (options : list string) (question : string) :
  let q := lower question in
  (forall i,
     handle_dropdown profile options question = Some i <->
     exists pre c post,
       dropdown_order = pre ++ c :: post /\ dropdown_keywords c q = true /\
       dropdown_search profile c (map lower options) = Ok (Some i) /\
       passed_over dropdown_keywords (dropdown_search profile) q
         (map lower options) pre) /\
  (forall i,
     handle_radio_buttons profile question options = Ok (Some i) <->
     exists pre c post,
       radio_order = pre ++ c :: post /\ radio_keywords c q = true /\
       radio_search profile c options = Ok (Some i) /\
       passed_over radio_keywords (radio_search profile) q options pre) /\
  (forall i,
     dropdown_search profile (classify_dropdown q) (map lower options)
       = Ok (Some i) ->
     handle_dropdown profile options question = Some i) /\
  (forall i,
     radio_search profile (classify_radio q) options = Ok (Some i) ->
     handle_radio_buttons profile question options = Ok (Some i)) /\
  (forall d, length (fill_dropdown profile d) <= 1) /\
  (forall g, length (fill_radio profile g) <= 1).
Proof.
  intros q. split; [|split; [|split; [|split; [|split]]]].
  - intros i. rewrite handle_dropdown_Some, handle_dropdown_fall_through.
    apply fall_through_Some.
  - intros i. rewrite handle_radio_fall_through. apply fall_through_Some.
  - intros i Hs. rewrite handle_dropdown_Some, handle_dropdown_fall_through.
    unfold classify_dropdown, classify_by in Hs.
    destruct (List.find _ dropdown_order) as [c|] eqn:Hfind; [|done].
    by apply fall_through_first with c.
  - intros i Hs. rewrite handle_radio_fall_through.
    unfold classify_radio, classify_by in Hs.
    destruct (List.find _ radio_order) as [c|] eqn:Hfind; [|done].
    by apply fall_through_first with c.
  - intros d. unfold fill_dropdown. destruct (handle_dropdown _ _ _); simpl; lia.
  - intros g. unfold fill_radio. destruct (rg_legend g); [|simpl; lia].
    destruct (handle_radio_buttons _ _ _) as [[?|]|?]; simpl; lia.
Qed.

Lemma C4_first_selecting_rule_witness :
  handle_dropdown ∅ ["High school"; "Bachelor's degree"]
    "Education level and gender" = Some 1 /\
  handle_radio_buttons ∅ "Willing to relocate or work remote?" ["No"; "Yes"]
    = Ok (Some 1).
Proof.
  destruct (C4_first_selecting_rule_wins ∅ ["High school"; "Bachelor's degree"]
              "Education level and gender") as (_ & _ & Hd & _).
  destruct (C4_first_selecting_rule_wins ∅ ["No"; "Yes"]
              "Willing to relocate or work remote?") as (_ & _ & _ & Hr & _).
  split; [apply Hd | apply Hr]; reflexivity.
Defined.

End RuleOrder.

(** ** The field dispatcher and filled controls *)

Section Idempotence.
Import PyStr Py Resolver Dispatcher Samples.

(** C6, as stated, fails: only the text-field loop tests the current
    value.  On a page all of whose controls hold a value, the dropdown
    and the radio group are resolved again. *)
Lemma C6_filled_controls_selected_again :
  all_filled filled_page = true /\
  dispatch ∅ filled_page = [SelectOption 1; ClickOption 0] /\
  filter (fun a => is_fill a) (dispatch ∅ filled_page) <> [].
Proof. by vm_compute. Qed.

Lemma fill_text_filled profile f :
  attr_truthy (tf_value f) = true -> fill_text profile f = [].
Proof. unfold fill_text. by intros ->. Qed.

Local Ltac absent := rewrite list_elem_of_In; simpl; intuition discriminate.

Lemma fill_dropdown_not_set profile d v : SetValue v ∉ fill_dropdown profile d.
Proof.
  unfold fill_dropdown. destruct (handle_dropdown _ _ _); absent.
Qed.

Lemma fill_radio_not_set profile g v : SetValue v ∉ fill_radio profile g.
Proof.
  unfold fill_radio. destruct (rg_legend g); [|absent].
  destruct (handle_radio_buttons _ _ _) as [[?|]|?]; absent.
Qed.

(** C6, amended: the dispatcher skips every text field that already
    carries a non-empty value; dropdowns and radio groups are resolved
    whatever value they carry.  Consequently a pass over a page whose
    text fields all hold values issues no [SetValue] action: what it
    issues is exactly what the dropdown and radio loops select. *)
Theorem C6_filled_text_fields_skipped (profile : gmap string pyval) (pg : Page) :
  Forall (fun f => attr_truthy (tf_value f) = true) (text_fields pg) ->
  (forall f, f ∈ text_fields pg -> fill_text profile f = []) /\
  dispatch profile pg =
    flat_map (fill_dropdown profile) (dropdowns pg) ++
    flat_map (fill_radio profile) (radio_groups pg) /\
  (forall v, SetValue v ∉ dispatch profile pg) /\
  (forall d v,
     fill_dropdown profile
       {| dd_value := v; dd_id := dd_id d; dd_label := dd_label d;
          dd_options := dd_options d |} = fill_dropdown profile d) /\
  (forall g v,
     fill_radio profile
       {| rg_value := v; rg_legend := rg_legend g; rg_options := rg_options g |}
     = fill_radio profile g).
Proof.
  intros Hall.
  assert (flat_map (fill_text profile) (text_fields pg) = []) as Htext.
  { induction Hall as [|f fs Hf _ IH]; simpl; [done|].
    by rewrite (fill_text_filled _ _ Hf), IH. }
  assert (dispatch profile pg =
          flat_map (fill_dropdown profile) (dropdowns pg) ++
          flat_map (fill_radio profile) (radio_groups pg)) as Hd
    by (unfold dispatch; by rewrite Htext).
  split; [|split; [done|split; [|done]]].
  - intros f Hf. apply fill_text_filled.
    by apply (proj1 (Forall_forall _ _) Hall).
  - intros v. rewrite Hd, elem_of_app, !list_elem_of_In, !in_flat_map.
    intros [(d & _ & H)|(g & _ & H)]; apply list_elem_of_In in H.
    + by apply fill_dropdown_not_set in H.
    + by apply fill_radio_not_set in H.
Qed.

Lemma C6_filled_text_fields_witness :
  dispatch disclosing_profile filled_page =
    flat_map (fill_dropdown disclosing_profile) (dropdowns filled_page) ++
    flat_map (fill_radio disclosing_profile) (radio_groups filled_page).
Proof.
  apply (C6_filled_text_fields_skipped disclosing_profile filled_page).
  repeat constructor.
Defined.

End Idempotence.

(** ** Page navigation *)

Section NavigationFacts.
Import PyStr Py Dispatcher Navigation Samples.

Lemma issued_app a l1 l2 : issued a (l1 ++ l2) = issued a l1 + issued a l2.
Proof. apply count_occ_app. Qed.

Lemma issued_none a l :
  is_navigation a = true ->
  Forall (fun x => is_navigation x = false) l ->
  issued a l = 0.
Proof.
  intros Ha Hl. apply count_occ_not_In. intros Hin.
  apply list_elem_of_In in Hin.
  apply (proj1 (Forall_forall _ _) Hl) in Hin. congruence.
Qed.

Lemma handle_years_sets profile question_text :
  exists v, Resolver.handle_years_experience profile question_text = SetValue v.
Proof.
  unfold Resolver.handle_years_experience, Resolver.fill_text_field.
  destruct (Resolver.first_years _ _); eauto.
Qed.

(** The text-field branches only ever type into the field. *)
Lemma text_action_sets profile label_text a :
  text_action profile label_text = Ok (Some a) -> exists v, a = SetValue v.
Proof.
  unfold text_action, Resolver.handle_phone_number, Resolver.fill_text_field.
  destruct (classify_text label_text); try done;
    try (intros [= <-]; eauto; apply handle_years_sets).
  destruct (digits_of _) as [s|e]; [|done]. intros [= <-]. eauto.
Qed.

(** Filling a page issues no navigation command. *)
Lemma process_page_fields profile pg :
  Forall (fun x => is_navigation x = false) (process_page profile pg).
Proof.
  unfold process_page, dispatch, upload.
  repeat apply Forall_app_2.
  - destruct (resume_input pg) as [v|]; [|constructor].
    destruct (attr_truthy v); [constructor|].
    destruct (truthy _); repeat constructor.
  - destruct (cover_input pg) as [v|]; [|constructor].
    destruct (attr_truthy v); [constructor|].
    destruct (truthy _); repeat constructor.
  - apply Forall_flat_map, Forall_forall. intros f _. unfold fill_text.
    destruct (attr_truthy _); [constructor|].
    destruct (text_action _ _) as [[a|]|e] eqn:E; try constructor; [|constructor].
    apply text_action_sets in E as [v ->]. done.
  - apply Forall_flat_map, Forall_forall. intros d _. unfold fill_dropdown.
    destruct (Resolver.handle_dropdown _ _ _); repeat constructor.
  - apply Forall_flat_map, Forall_forall. intros g _. unfold fill_radio.
    destruct (rg_legend g); [|constructor].
    destruct (Resolver.handle_radio_buttons _ _ _) as [[?|]|?];
      repeat constructor.
Qed.

Lemma issued_process a profile pg :
  is_navigation a = true -> issued a (process_page profile pg) = 0.
Proof. intros Ha. apply issued_none; [done | apply process_page_fields]. Qed.

(** The loop on a site every page of which has a Continue/Next button. *)
Lemma page_loop_always_next profile pages :
  (forall n, has_button next_selector (pages n) = true) ->
  forall remaining count cur done,
    let r := page_loop profile pages remaining count cur done in
    outcome r = (false, "Max Pages Reached") /\
    page_count r = count + remaining /\
    shown r = cur + remaining /\
    issued ClickNext (commands r) = issued ClickNext done + remaining /\
    issued ClickReview (commands r) = issued ClickReview done /\
    issued ClickSubmit (commands r) = issued ClickSubmit done /\
    (remaining <> 0 -> exists pre, commands r = pre ++ [ClickNext]).
Proof.
  intros Hnext. induction remaining as [|n IH]; intros count cur done.
  - cbn. repeat split; try lia. done.
  - cbn [page_loop]. cbv zeta. rewrite Hnext.
    destruct (IH (S count) (S cur)
                ((done ++ process_page profile (pages cur)) ++ [ClickNext]))
      as (Ho & Hc & Hs & Hn & Hr & Hsub & Hlast).
    rewrite !issued_app, !issued_process in Hn, Hr, Hsub by done.
    cbn in Hn, Hr, Hsub.
    repeat split; try done; try lia.
    intros _. destruct n as [|n].
    + cbn. eauto.
    + apply Hlast. lia.
Qed.

(** C5: the code at the input where the claim fails.  When the first
    page shows none of the three buttons, the [break] leaves the loop
    and the function returns the failure pair [(False, "Max Pages
    Reached")], although one page only was processed. *)
Theorem C5_no_button_reports_max_pages (profile : gmap string pyval) (job : Job) :
  open_error job = None ->
  no_button (site job 0) ->
  let r := fill_linkedin_easy_apply profile job in
  outcome r = (false, "Max Pages Reached") /\
  page_count r = 1 /\ page_count r < max_pages /\
  commands r = process_page profile (site job 0).
Proof.
  intros Hopen (Hn & Hr & Hs). unfold fill_linkedin_easy_apply, max_pages.
  rewrite Hopen. cbn [page_loop]. cbv zeta. rewrite Hn, Hr, Hs. cbn.
  repeat split; lia.
Qed.

Lemma C5_no_button_witness :
  outcome (fill_linkedin_easy_apply ∅ dead_end_job) = (false, "Max Pages Reached").
Proof.
  apply (C5_no_button_reports_max_pages ∅ dead_end_job); by vm_compute.
Defined.

(** C7: on a flow whose first two pages expose only a Continue control
    and whose third page exposes only a Submit control, with auto-submit
    disabled, the function returns "Ready to Submit" while on the third
    page, having clicked Continue exactly twice and Submit never. *)
Theorem C7_three_pages_ready_to_submit (profile : gmap string pyval) (job : Job) :
  open_error job = None ->
  only_continue (site job 0) ->
  only_continue (site job 1) ->
  only_submit (site job 2) ->
  truthy (get profile "auto_submit" (PBool false)) = false ->
  let r := fill_linkedin_easy_apply profile job in
  outcome r = (true, "Ready to Submit - Confirmation Required") /\
  page_count r = 3 /\ shown r = 2 /\
  issued ClickNext (commands r) = 2 /\
  issued ClickReview (commands r) = 0 /\
  issued ClickSubmit (commands r) = 0.
Proof.
  intros Hopen (H0 & _ & _) (H1 & _ & _) (Hn & Hr & Hs) Hauto.
  unfold fill_linkedin_easy_apply, max_pages. rewrite Hopen.
  cbn [page_loop]. cbv zeta. rewrite H0.
  cbn [page_loop]. cbv zeta. rewrite H1.
  cbn [page_loop]. cbv zeta. rewrite Hn, Hr, Hs, Hauto.
  cbn [outcome page_count shown commands].
  rewrite !issued_app, !issued_process by done.
  by repeat split.
Qed.

Lemma C7_three_pages_witness :
  let r := fill_linkedin_easy_apply ∅ three_page_job in
  outcome r = (true, "Ready to Submit - Confirmation Required") /\
  page_count r = 3 /\ shown r = 2 /\
  issued ClickNext (commands r) = 2 /\
  issued ClickReview (commands r) = 0 /\
  issued ClickSubmit (commands r) = 0.
Proof.
  apply (C7_three_pages_ready_to_submit ∅ three_page_job); by vm_compute.
Defined.

(** The secondary loop on a site every page of which has the button it
    looks for. *)
Lemma for_pages_always_next config pages :
  (forall n, Monitor.has_button "Continue to next step" (pages n) = true) ->
  forall remaining r,
    Monitor.for_pages config pages remaining r =
    {| Monitor.status := Monitor.status r;
       Monitor.applied := Monitor.applied r;
       Monitor.iterations := Monitor.iterations r + remaining;
       Monitor.shown := Monitor.shown r + remaining;
       Monitor.commands := Monitor.commands r ++ List.repeat ClickNext remaining |}.
Proof.
  intros Hnext. induction remaining as [|n IH]; intros [st ap it sh cs].
  - cbn. by rewrite !Nat.add_0_r, app_nil_r.
  - cbn [Monitor.for_pages]. cbv zeta. cbn [Monitor.shown]. rewrite Hnext.
    rewrite IH. cbn. f_equal; try lia. by rewrite <- app_assoc.
Qed.

Lemma only_continue_no_submit_application pg :
  only_continue pg -> Monitor.has_button "Submit application" pg = false.
Proof.
  intros (_ & _ & Hs). unfold Monitor.has_button, has_button in *.
  apply not_true_is_false. intros He.
  apply existsb_exists in He as (b & Hin & Heq).
  apply String.eqb_eq in Heq. subst b.
  assert (existsb submit_selector (buttons pg) = true) as Ht.
  { apply existsb_exists. exists "Submit application". split; [done|].
    by vm_compute. }
  congruence.
Qed.

(** The secondary loop on a site that never shows a button labelled
    "Submit application": it clicks through the leading pages that carry
    a button labelled "Continue to next step" and stops at the first page
    without one, or when its iterations are used up. *)
Lemma for_pages_without_submit config pages :
  (forall n, Monitor.has_button "Submit application" (pages n) = false) ->
  forall remaining r,
    let r' := Monitor.for_pages config pages remaining r in
    Monitor.status r' = Monitor.status r /\
    Monitor.applied r' = Monitor.applied r /\
    Monitor.iterations r' <= Monitor.iterations r + remaining /\
    exists k,
      k <= remaining /\
      Monitor.shown r' = Monitor.shown r + k /\
      Monitor.iterations r + k <= Monitor.iterations r' /\
      Monitor.commands r' = Monitor.commands r ++ List.repeat ClickNext k /\
      (forall n, n < k ->
         Monitor.has_button "Continue to next step"
           (pages (Monitor.shown r + n)) = true) /\
      (k < remaining ->
         Monitor.has_button "Continue to next step"
           (pages (Monitor.shown r + k)) = false).
Proof.
  intros Hsub. induction remaining as [|m IH]; intros [st ap it sh cs].
  - cbn. split; [done|]. split; [done|]. split; [lia|].
    exists 0. cbn. rewrite app_nil_r, Nat.add_0_r.
    split; [lia|]. split; [done|]. split; [lia|]. split; [done|].
    split; intros; lia.
  - cbn [Monitor.for_pages]. cbv zeta.
    cbn [Monitor.status Monitor.applied Monitor.iterations Monitor.shown
         Monitor.commands].
    destruct (Monitor.has_button "Continue to next step" (pages sh)) eqn:Hn.
    + match goal with
      | |- context [Monitor.for_pages _ _ m ?r0] =>
          destruct (IH r0) as (Hst & Hap & Hit & k & Hk & Hsh & Hlow & Hcs & Hall & Hstop)
      end.
      cbn [Monitor.status Monitor.applied Monitor.iterations Monitor.shown
           Monitor.commands] in *.
      split; [done|]. split; [done|]. split; [lia|].
      exists (S k). split; [lia|]. split; [lia|]. split; [lia|].
      split; [rewrite Hcs; cbn [List.repeat]; by rewrite <- app_assoc|].
      split.
      * intros [|n] Hlt; [by rewrite Nat.add_0_r|].
        replace (sh + S n) with (S sh + n) by lia. apply Hall. lia.
      * intros Hlt. replace (sh + S k) with (S sh + k) by lia. apply Hstop. lia.
    + rewrite Hsub.
      cbn [Monitor.status Monitor.applied Monitor.iterations Monitor.shown
           Monitor.commands].
      split; [done|]. split; [done|]. split; [lia|].
      exists 0. cbn [List.repeat]. rewrite app_nil_r, Nat.add_0_r.
      split; [lia|]. split; [done|]. split; [lia|]. split; [done|].
      split; [intros n Hlt; lia | done].
Qed.

(** Closing the dialog adds at most the Dismiss click. *)
Lemma close_modal_trace pages r :
  let r' := Monitor.close_modal pages r in
  Monitor.status r' = Monitor.status r /\
  Monitor.applied r' = Monitor.applied r /\
  Monitor.iterations r' = Monitor.iterations r /\
  Monitor.shown r' = Monitor.shown r /\
  Monitor.commands r' =
    Monitor.commands r ++
    (if Monitor.has_button "Dismiss" (pages (Monitor.shown r))
     then [ClickDismiss] else []).
Proof.
  unfold Monitor.close_modal.
  destruct (Monitor.has_button "Dismiss" _); cbn; by rewrite ?app_nil_r.
Qed.

(** C8, as stated, fails for the secondary flow: after its five
    iterations the loop just ends; no "Max Pages Reached" outcome is
    produced and the job keeps the status it had. *)
Lemma C8_secondary_flow_reports_nothing :
  let r := Monitor.apply_to_job ∅ endless_job "Found" in
  Monitor.iterations r = Monitor.max_pages /\
  Monitor.status r = "Found" /\
  Monitor.status r <> "Max Pages Reached".
Proof. by vm_compute. Qed.

(** C8, amended: on a flow that offers only a Continue control on every
    page, and never a Review or Submit control, the primary loop stops
    exactly when its tenth page has been processed, returns "Max Pages
    Reached", and its tenth Continue click is the last command it
    issues.  On the same flow the secondary flow reports no outcome at
    all: the job keeps its status and is not recorded as applied.  It
    runs at most five iterations and clicks Continue only on pages whose
    button is labelled exactly "Continue to next step": it clicks through
    the leading pages that carry this label and stops at the first page
    that does not, so that it issues exactly five Continue clicks in five
    iterations when the first five pages carry it.  The only command
    issued afterwards is the click that closes the dialog, when the page
    left on screen has a Dismiss button. *)
Theorem C8_page_ceiling
    (profile config : gmap string pyval) (job : Job) (status0 : string) :
  open_error job = None ->
  (forall n, only_continue (site job n)) ->
  (let r := fill_linkedin_easy_apply profile job in
   outcome r = (false, "Max Pages Reached") /\
   page_count r = 10 /\ shown r = 10 /\
   issued ClickNext (commands r) = 10 /\
   issued ClickReview (commands r) = 0 /\
   issued ClickSubmit (commands r) = 0 /\
   exists pre, commands r = pre ++ [ClickNext]) /\
  (let r := Monitor.apply_to_job config job status0 in
   Monitor.status r = status0 /\
   Monitor.applied r = false /\
   Monitor.iterations r <= 5 /\
   Monitor.shown r <= 5 /\
   Monitor.commands r =
     List.repeat ClickNext (Monitor.shown r) ++
     (if Monitor.has_button "Dismiss" (site job (Monitor.shown r))
      then [ClickDismiss] else []) /\
   (forall n, n < Monitor.shown r ->
      Monitor.has_button "Continue to next step" (site job n) = true) /\
   (Monitor.shown r < 5 ->
      Monitor.has_button "Continue to next step"
        (site job (Monitor.shown r)) = false) /\
   ((forall n, n < 5 ->
       Monitor.has_button "Continue to next step" (site job n) = true) ->
    Monitor.shown r = 5 /\ Monitor.iterations r = 5)).
Proof.
  intros Hopen Hall. split.
  - assert (forall n, has_button next_selector (site job n) = true) as Hnext
      by (intros n; apply Hall).
    unfold fill_linkedin_easy_apply, max_pages. rewrite Hopen.
    destruct (page_loop_always_next profile (site job) Hnext 10 0 0 [])
      as (Ho & Hc & Hs & Hn & Hr & Hsub & Hlast).
    repeat split; try done. by apply Hlast.
  - assert (forall n, Monitor.has_button "Submit application" (site job n) = false)
      as Hsub by (intros n; apply only_continue_no_submit_application, Hall).
    unfold Monitor.apply_to_job, Monitor.max_pages. rewrite Hopen. cbv zeta.
    match goal with
    | |- context [Monitor.close_modal ?pages (Monitor.for_pages ?c ?p ?n ?r0)] =>
        destruct (for_pages_without_submit c p Hsub n r0)
          as (Hst & Hap & Hit & k & Hk & Hsh & Hlow & Hcs & Hlead & Hstop);
        destruct (close_modal_trace pages (Monitor.for_pages c p n r0))
          as (-> & -> & -> & -> & ->)
    end.
    cbn [Monitor.status Monitor.applied Monitor.iterations Monitor.shown
         Monitor.commands Nat.add app] in *.
    rewrite Hst, Hap, Hsh, Hcs.
    split; [done|]. split; [done|]. split; [lia|]. split; [lia|].
    split; [done|]. split; [exact Hlead|]. split; [exact Hstop|].
    intros Hfive.
    assert (k = 5) as ->; [|split; [done | lia]].
    destruct (decide (k < 5)) as [Hlt|]; [|lia].
    specialize (Hstop Hlt). rewrite Hfive in Hstop; [done|lia].
Qed.

Lemma C8_page_ceiling_witness :
  outcome (fill_linkedin_easy_apply ∅ endless_job) = (false, "Max Pages Reached") /\
  Monitor.status (Monitor.apply_to_job ∅ endless_job "Found") = "Found" /\
  Monitor.commands (Monitor.apply_to_job ∅ endless_job "Found")
    = List.repeat ClickNext 5.
Proof.
  destruct (C8_page_ceiling ∅ ∅ endless_job "Found" eq_refl
              (fun n => conj eq_refl (conj eq_refl eq_refl)))
    as [Hp (Hst & _ & _ & _ & Hcs & _)].
  split; [apply Hp|]. split; [exact Hst|]. exact Hcs.
Defined.

End NavigationFacts.

(** * Further properties of the resolver *)

Section ResolverBounds.
Import PyStr Py Resolver Dispatcher Rules.

Lemma first_index_lt {A} (test : A -> bool) (l : list A) (i : nat) :
  first_index test l = Some i -> i < length l.
Proof.
  intros H. apply first_index_Some in H as [(x & Hx & _) _].
  by apply lookup_lt_Some in Hx.
Qed.

Lemma first_index_passes {A} (test : A -> bool) (l : list A) (i : nat) :
  first_index test l = Some i -> exists x, l !! i = Some x /\ test x = true.
Proof. intros H. by apply first_index_Some in H as [H _]. Qed.

Lemma dropdown_search_lt profile c options i :
  dropdown_search profile c options = Ok (Some i) -> i < length options.
Proof.
  destruct c; cbn [dropdown_search]; try done.
  - destruct (str_lower _) as [t|e]; [|done].
    intros [= H]. by apply first_index_lt in H.
  - destruct (truthy _); [|done]. intros [= H]. by apply first_index_lt in H.
  - destruct (str_lower _) as [t|e]; [|done].
    intros [= H]. by apply first_index_lt in H.
  - destruct (truthy _).
    + destruct options as [|o os] eqn:E; [done|]. rewrite <- E.
      destruct (str_lower _) as [t|e]; [|done].
      intros [= H]. by apply first_index_lt in H.
    + intros [= H]. by apply first_index_lt in H.
  - destruct (truthy _).
    + destruct options as [|o os] eqn:E; [done|]. rewrite <- E.
      destruct (str_lower _) as [t|e]; [|done].
      intros [= H]. by apply first_index_lt in H.
    + intros [= H]. by apply first_index_lt in H.
  - intros [= H]. by apply first_index_lt in H.
  - intros [= H]. by apply first_index_lt in H.
Qed.

Lemma radio_search_Some profile c options i :
  radio_search profile c options = Ok (Some i) ->
  exists target text,
    (target = "yes" \/ target = "no") /\
    options !! i = Some text /\ contains target (lower text) = true.
Proof.
  assert (forall v, yes_or_no v = "yes" \/ yes_or_no v = "no") as Hyn
    by (intros v; unfold yes_or_no; destruct (truthy v); auto).
  destruct c; cbn [radio_search]; try done.
  all: intros [= H]; apply first_index_passes in H as (text & Ht & Hc).
  all: eexists _, text; split; [apply Hyn | done].
Qed.

(** X1: an index handed to [select_by_index] by [handle_dropdown], or
    clicked by [handle_radio_buttons], always designates one of the
    control's options. *)
Theorem selected_index_in_range
    (profile : gmap string pyval) (options : list string) (question : string)
    (i : nat) :
  (handle_dropdown profile options question = Some i -> i < length options) /\
  (handle_radio_buttons profile question options = Ok (Some i) ->
   i < length options).
Proof.
  split.
  - rewrite handle_dropdown_Some, handle_dropdown_fall_through.
    intros H. apply fall_through_Some in H as (pre & c & post & _ & _ & Hs & _).
    apply dropdown_search_lt in Hs. by rewrite length_map in Hs.
  - rewrite handle_radio_fall_through.
    intros H. apply fall_through_Some in H as (pre & c & post & _ & _ & Hs & _).
    apply radio_search_Some in Hs as (target & text & _ & Ht & _).
    by apply lookup_lt_Some in Ht.
Qed.

Lemma selected_index_in_range_witness :
  1 < length ["Yes"; "No"].
Proof.
  apply (proj1 (selected_index_in_range ∅ ["Yes"; "No"] "Veteran status" 1)).
  reflexivity.
Defined.

End ResolverBounds.

Section ResolverBehaviour.
Import PyStr Py Resolver Dispatcher Rules Samples.

Lemma radio_search_lowered profile c options :
  radio_search profile c options =
  match c with
  | WorkAuthorization | Relocation | RemotePreference =>
      Ok (first_index
            (contains
               (yes_or_no
                  (get profile
                     match c with
                     | WorkAuthorization => "work_authorized"
                     | Relocation => "willing_to_relocate"
                     | _ => "open_to_remote"
                     end (PBool true))))
            (map lower options))
  | _ => Ok None
  end.
Proof. destruct c; cbn [radio_search]; by rewrite ?first_index_map. Qed.

(** X2: the answers depend on the question and on the option texts only
    up to letter case. *)
Theorem answers_ignore_letter_case
    (profile : gmap string pyval) (options options' : list string)
    (question question' : string) :
  lower question = lower question' ->
  map lower options = map lower options' ->
  handle_dropdown profile options question
    = handle_dropdown profile options' question' /\
  handle_radio_buttons profile question options
    = handle_radio_buttons profile question' options' /\
  handle_years_experience profile question
    = handle_years_experience profile question' /\
  handle_yes_no_question question = handle_yes_no_question question'.
Proof.
  intros Hq Ho. repeat split.
  - unfold handle_dropdown, handle_dropdown_body. cbv zeta. by rewrite Hq, Ho.
  - rewrite !handle_radio_fall_through, Hq.
    assert (forall c, radio_search profile c options
                      = radio_search profile c options') as Hs
      by (intros c; by rewrite !radio_search_lowered, Ho).
    unfold radio_order. cbn [fall_through]. by rewrite !Hs.
  - unfold handle_years_experience. cbv zeta. by rewrite Hq.
  - unfold handle_yes_no_question. cbv zeta. by rewrite Hq.
Qed.

Lemma answers_ignore_letter_case_witness :
  handle_dropdown ∅ ["YES"; "NO"] "VETERAN STATUS"
  = handle_dropdown ∅ ["yes"; "no"] "Veteran status".
Proof.
  apply (answers_ignore_letter_case ∅ ["YES"; "NO"] ["yes"; "no"]
           "VETERAN STATUS" "Veteran status"); reflexivity.
Defined.

Lemma classify_dropdown_unclassified (q : string) :
  classify_dropdown q = Unclassified ->
  forall c, dropdown_keywords c q = false.
Proof.
  unfold classify_dropdown, classify_by, dropdown_order. cbn [List.find].
  repeat match goal with
         | |- context [if dropdown_keywords ?c q then _ else _] =>
             destruct (dropdown_keywords c q) eqn:?; [done|]
         end.
  intros _ c. by destruct c.
Qed.

Lemma classify_radio_unclassified (q : string) :
  classify_radio q = Unclassified ->
  forall c, radio_keywords c q = false.
Proof.
  unfold classify_radio, classify_by, radio_order. cbn [List.find].
  repeat match goal with
         | |- context [if radio_keywords ?c q then _ else _] =>
             destruct (radio_keywords c q) eqn:?; [done|]
         end.
  intros _ c. by destruct c.
Qed.

(** X3: a control whose label matches no rule is left alone, whatever the
    profile and the options are; so is a dropdown or a text field that
    has no id or no label element, since its label is then empty. *)
Theorem unmatched_label_is_skipped
    (profile : gmap string pyval) (options : list string) (question : string) :
  (classify_dropdown (lower question) = Unclassified ->
   handle_dropdown profile options question = None) /\
  (classify_radio (lower question) = Unclassified ->
   handle_radio_buttons profile question options = Ok None) /\
  (forall d, attr_truthy (dd_id d) = false \/ dd_label d = None ->
             fill_dropdown profile d = []) /\
  (forall f, attr_truthy (tf_value f) = false ->
             attr_truthy (tf_id f) = false \/ tf_label f = None ->
             fill_text profile f = []).
Proof.
  assert (forall opts, handle_dropdown profile opts "" = None) as Hempty.
  { intros opts. unfold handle_dropdown.
    rewrite handle_dropdown_fall_through. reflexivity. }
  split; [|split; [|split]].
  - intros H. unfold handle_dropdown. rewrite handle_dropdown_fall_through.
    unfold dropdown_order. cbn [fall_through].
    by rewrite !(classify_dropdown_unclassified _ H).
  - intros H. rewrite handle_radio_fall_through.
    unfold radio_order. cbn [fall_through].
    by rewrite !(classify_radio_unclassified _ H).
  - intros d Hd. unfold fill_dropdown.
    assert (dropdown_label d = "") as ->.
    { unfold dropdown_label. destruct Hd as [-> | ->]; [done|].
      by destruct (attr_truthy _). }
    by rewrite Hempty.
  - intros f Hv Hf. unfold fill_text. rewrite Hv.
    assert (text_label f = "") as ->.
    { unfold text_label. destruct Hf as [-> | ->]; [done|].
      by destruct (attr_truthy (tf_id f)). }
    reflexivity.
Qed.

Lemma unmatched_label_witness :
  handle_dropdown disclosing_profile ["Yes"; "No"] "Favourite colour" = None /\
  fill_text profile_with_python
    {| tf_value := None; tf_id := None; tf_label := Some "Phone" |} = [].
Proof.
  destruct (unmatched_label_is_skipped disclosing_profile ["Yes"; "No"]
              "Favourite colour") as (Hd & _).
  destruct (unmatched_label_is_skipped profile_with_python [] "")
    as (_ & _ & _ & Hf).
  split; [apply Hd; reflexivity | apply Hf; [reflexivity | by left]].
Defined.

(** X4: when the profile's [education_level] is not a string (a JSON
    number, boolean or null), lower-casing it raises; the handler's
    [except] turns that into "nothing selected" for every dropdown whose
    label mentions education or degree, whatever else the label says. *)
Theorem non_string_education_level_selects_nothing
    (profile : gmap string pyval) (options : list string) (question : string)
    (v : pyval) :
  profile !! "education_level" = Some v ->
  (forall s, v <> PStr s) ->
  dropdown_keywords Education (lower question) = true ->
  handle_dropdown profile options question = None.
Proof.
  intros Hv Hns Hk. unfold handle_dropdown, handle_dropdown_body, block.
  cbv zeta. rewrite Hk. cbn [dropdown_search]. unfold get. rewrite Hv.
  destruct v as [s| | |]; [by destruct (Hns s)|..]; reflexivity.
Qed.

Lemma non_string_education_level_witness :
  handle_dropdown (<["education_level" := PNone]> ∅) ["Yes"; "No"]
    "Degree held / veteran status" = None.
Proof.
  apply (non_string_education_level_selects_nothing _ _ _ PNone);
    [reflexivity | discriminate | reflexivity].
Defined.

(** X5: without the disclosure flags, a dropdown classified as gender or
    ethnicity, whose label does not also mention veterans, is answered
    with the first option containing "prefer not" or "decline", and left
    alone when there is none: no other option can be selected. *)
Theorem undisclosed_demographics_only_decline
    (profile : gmap string pyval) (options : list string) (question : string) :
  truthy (get profile "gender_disclosure" (PBool false)) = false ->
  truthy (get profile "ethnicity_disclosure" (PBool false)) = false ->
  classify_dropdown (lower question) = Gender \/
  classify_dropdown (lower question) = Ethnicity ->
  dropdown_keywords VeteranStatus (lower question) = false ->
  handle_dropdown profile options question =
  first_index (fun text => prefer_not (lower text)) options.
Proof.
  intros Hg He Hc Hvet.
  set (opts := map lower options).
  assert (dropdown_search profile Gender opts = Ok (first_index prefer_not opts))
    as Sg by (cbn [dropdown_search]; by rewrite Hg).
  assert (dropdown_search profile Ethnicity opts = Ok (first_index prefer_not opts))
    as Se by (cbn [dropdown_search]; by rewrite He).
  assert (dropdown_search profile DisabilityStatus opts
          = Ok (first_index prefer_not opts)) as Sd by done.
  unfold handle_dropdown. rewrite handle_dropdown_fall_through.
  unfold dropdown_order. cbn [fall_through]. fold opts.
  rewrite Hvet, Sg, Se, Sd, <- (first_index_map prefer_not lower). fold opts.
  destruct Hc as [Hc | Hc].
  - apply classify_dropdown_gender in Hc as (-> & -> & -> & ->).
    destruct (first_index prefer_not opts); [done|].
    by destruct (dropdown_keywords Ethnicity _),
                (dropdown_keywords DisabilityStatus _).
  - apply classify_dropdown_ethnicity in Hc as (-> & -> & -> & -> & ->).
    destruct (first_index prefer_not opts); [done|].
    by destruct (dropdown_keywords DisabilityStatus _).
Qed.

Lemma undisclosed_demographics_witness :
  handle_dropdown ∅ ["Male"; "Female"; "Decline to self-identify"] "Gender"
  = first_index (fun text => prefer_not (lower text))
      ["Male"; "Female"; "Decline to self-identify"].
Proof.
  apply undisclosed_demographics_only_decline;
    [reflexivity | reflexivity | by left | reflexivity].
Defined.

(** X6: for a profile that is not work-authorized, the dropdown rule has
    no policy: a dropdown that only the work-authorization rule matches
    is left unanswered.  The radio rule does have one: it clicks the
    first option containing "no". *)
Theorem unauthorized_profile_answers
    (profile : gmap string pyval) (options : list string) (question : string) :
  truthy (get profile "work_authorized" (PBool true)) = false ->
  (classify_dropdown (lower question) = WorkAuthorization ->
   Forall (fun c => dropdown_keywords c (lower question) = false)
     [VisaStatus; Gender; Ethnicity; VeteranStatus; DisabilityStatus] ->
   handle_dropdown profile options question = None) /\
  (classify_radio (lower question) = WorkAuthorization ->
   forall i,
     first_index (fun text => contains "no" (lower text)) options = Some i ->
     handle_radio_buttons profile question options = Ok (Some i)).
Proof.
  intros Hauth. split.
  - intros Hc Hrest.
    assert (dropdown_keywords Education (lower question) = false /\
            dropdown_keywords WorkAuthorization (lower question) = true)
      as [E1 E2].
    { revert Hc. unfold classify_dropdown, classify_by, dropdown_order.
      cbn [List.find].
      repeat match goal with
             | |- context [if dropdown_keywords ?c ?q then _ else _] =>
                 destruct (dropdown_keywords c q); [done|]
             end; done. }
    repeat match goal with
           | H : Forall _ (_ :: _) |- _ => apply Forall_cons in H as [? H]
           end.
    unfold handle_dropdown. rewrite handle_dropdown_fall_through.
    unfold dropdown_order. cbn [fall_through].
    repeat match goal with
           | H : dropdown_keywords _ _ = _ |- _ => rewrite H; clear H
           end.
    cbn [dropdown_search]. by rewrite Hauth.
  - intros Hc i Hi. rewrite handle_radio_fall_through.
    unfold classify_radio, classify_by, radio_order in *.
    cbn [List.find fall_through] in *.
    destruct (radio_keywords WorkAuthorization (lower question)).
    + cbn [radio_search]. unfold yes_or_no. rewrite Hauth.
      unfold mret, res_ret. by rewrite Hi.
    + destruct (radio_keywords Relocation (lower question)); [done|].
      by destruct (radio_keywords RemotePreference (lower question)).
Qed.

Lemma unauthorized_profile_witness :
  handle_dropdown unauthorized_profile ["Yes"; "No"]
    "Are you authorized to work here?" = None /\
  handle_radio_buttons unauthorized_profile
    "Are you authorized to work here?" ["Yes"; "No"] = Ok (Some 1).
Proof.
  destruct (unauthorized_profile_answers unauthorized_profile ["Yes"; "No"]
              "Are you authorized to work here?" eq_refl) as [Hd Hr].
  split.
  - apply Hd; [reflexivity | by repeat constructor].
  - apply Hr; reflexivity.
Defined.

(** X7: [handle_radio_buttons] never raises; an option it clicks contains
    "yes" or "no", and on a profile that sets none of the three flags it
    contains "yes". *)
Theorem radio_click_contains_answer
    (profile : gmap string pyval) (question : string) (options : list string) :
  (exists r, handle_radio_buttons profile question options = Ok r) /\
  (forall i,
     handle_radio_buttons profile question options = Ok (Some i) ->
     exists text,
       options !! i = Some text /\
       (contains "yes" (lower text) = true \/ contains "no" (lower text) = true) /\
       (profile !! "work_authorized" = None ->
        profile !! "willing_to_relocate" = None ->
        profile !! "open_to_remote" = None ->
        contains "yes" (lower text) = true)).
Proof.
  split.
  - rewrite handle_radio_fall_through. unfold radio_order. cbn [fall_through].
    rewrite !radio_search_lowered.
    repeat match goal with
           | |- context [if ?b then _ else _] => destruct b
           | |- context [first_index ?t ?l] => destruct (first_index t l)
           end; eauto.
  - intros i H. rewrite handle_radio_fall_through in H.
    apply fall_through_Some in H as (pre & c & post & _ & Hk & Hs & _).
    rewrite radio_search_lowered in Hs.
    destruct c; try done; injection Hs as Hs;
      rewrite first_index_map in Hs;
      apply first_index_passes in Hs as (text & Ht & Hc);
      exists text; (split; [done|]); unfold yes_or_no, get in Hc.
    all: split;
      [ destruct (truthy _); auto
      | intros H1 H2 H3; rewrite ?H1, ?H2, ?H3 in Hc; exact Hc ].
Qed.

Lemma radio_click_witness :
  exists text, ["No"; "Yes, I can"] !! 1 = Some text /\
               contains "yes" (lower text) = true.
Proof.
  destruct (proj2 (radio_click_contains_answer ∅ "Open to remote work?"
                     ["No"; "Yes, I can"]) 1)
    as (text & Ht & _ & Hyes); [reflexivity|].
  exists text. split; [exact Ht | by apply Hyes].
Defined.

End ResolverBehaviour.

Section TextAnswers.
Import PyStr Py Resolver Dispatcher Samples.

(** X8: the total count answers every years-of-experience question that
    mentions "total", even when it also names a domain, and every
    question that names none of the four domains. *)
Theorem years_answer_defaults_to_total
    (profile : gmap string pyval) (question : string) :
  contains "total" (lower question) = true \/
  Forall (fun key => contains key (lower question) = false)
    ["python"; "finance"; "trading"; "operations"] ->
  handle_years_experience profile question =
  SetValue (PStr (py_str (get profile "total_years_experience" (PInt 3)))).
Proof.
  unfold handle_years_experience, experience_map, fill_text_field.
  cbv zeta. cbn [first_years]. intros [-> | H]; [done|].
  repeat match goal with
         | H : Forall _ (_ :: _) |- _ => apply Forall_cons in H as [-> H]
         end.
  by destruct (contains "total" _).
Qed.

Lemma years_answer_defaults_witness :
  handle_years_experience profile_with_python
    "Total years of Python experience" = SetValue (PStr "6").
Proof.
  apply (years_answer_defaults_to_total profile_with_python
           "Total years of Python experience").
  by left.
Defined.

Lemma filter_digits_all (s : string) :
  forallb isdigit (list_ascii_of_string (filter_digits s)) = true.
Proof.
  induction s as [|c s IH]; simpl; [done|].
  destruct (isdigit c) eqn:E; simpl; [by rewrite E|done].
Qed.

Lemma filter_digits_id (s : string) :
  forallb isdigit (list_ascii_of_string s) = true -> filter_digits s = s.
Proof.
  induction s as [|c s IH]; simpl; [done|].
  intros H. apply andb_true_iff in H as [-> H]. by rewrite IH.
Qed.

(** X9: the phone answer consists of the digits of the profile's phone
    number, in order and nothing else; a number already made of digits
    is sent unchanged, a missing number gives the empty string.  A phone
    entry that is an integer, a boolean or null cannot be iterated: the
    handler raises [TypeError], and the text-field loop then issues
    nothing for the phone field. *)
Theorem phone_answer_is_digits (profile : gmap string pyval) :
  (forall s, profile !! "phone" = Some (PStr s) ->
     handle_phone_number profile = Ok (SetValue (PStr (filter_digits s))) /\
     forallb isdigit (list_ascii_of_string (filter_digits s)) = true /\
     (forallb isdigit (list_ascii_of_string s) = true -> filter_digits s = s)) /\
  (profile !! "phone" = None ->
   handle_phone_number profile = Ok (SetValue (PStr ""))) /\
  (forall v, profile !! "phone" = Some v ->
     (exists n, v = PInt n) \/ (exists b, v = PBool b) \/ v = PNone ->
     handle_phone_number profile = Raise TypeError /\
     forall f, classify_text (text_label f) = Phone -> fill_text profile f = []).
Proof.
  unfold handle_phone_number, get. split; [|split].
  - intros s ->. split; [done|]. split; [apply filter_digits_all|].
    apply filter_digits_id.
  - by intros ->.
  - intros v Hv Hns.
    assert (handle_phone_number profile = Raise TypeError) as Hraise.
    { unfold handle_phone_number, get. rewrite Hv.
      by destruct Hns as [[n ->] | [[b ->] | ->]]. }
    split; [exact Hraise|].
    intros f Hf. unfold fill_text, text_action.
    destruct (attr_truthy (tf_value f)); [done|]. by rewrite Hf, Hraise.
Qed.

Lemma phone_answer_witness :
  handle_phone_number (<["phone" := PStr "(212) 555-0100"]> ∅)
  = Ok (SetValue (PStr "2125550100")).
Proof.
  apply (proj1 (phone_answer_is_digits (<["phone" := PStr "(212) 555-0100"]> ∅))
           "(212) 555-0100").
  reflexivity.
Defined.

Lemma flat_map_length_le {A B} (f : A -> list B) (l : list A) :
  (forall x, length (f x) <= 1) -> length (flat_map f l) <= length l.
Proof.
  intros Hf. induction l as [|x l IH]; simpl; [lia|].
  rewrite length_app. specialize (Hf x). lia.
Qed.

Lemma fill_text_short profile f : length (fill_text profile f) <= 1.
Proof.
  unfold fill_text. destruct (attr_truthy _); [simpl; lia|].
  destruct (text_action _ _) as [[?|]|?]; simpl; lia.
Qed.

Lemma fill_dropdown_short profile d : length (fill_dropdown profile d) <= 1.
Proof.
  unfold fill_dropdown. destruct (handle_dropdown _ _ _); simpl; lia.
Qed.

Lemma fill_radio_short profile g : length (fill_radio profile g) <= 1.
Proof.
  unfold fill_radio. destruct (rg_legend g); [|simpl; lia].
  destruct (handle_radio_buttons _ _ _) as [[?|]|?]; simpl; lia.
Qed.

Lemma dispatch_fills profile pg :
  Forall (fun a => is_fill a = true) (dispatch profile pg).
Proof.
  unfold dispatch. repeat apply Forall_app_2.
  - apply Forall_flat_map, Forall_forall. intros f _. unfold fill_text.
    destruct (attr_truthy _); [constructor|].
    destruct (text_action _ _) as [[a|]|e] eqn:E; try constructor; [|constructor].
    by apply text_action_sets in E as [v ->].
  - apply Forall_flat_map, Forall_forall. intros d _. unfold fill_dropdown.
    destruct (handle_dropdown _ _ _); repeat constructor.
  - apply Forall_flat_map, Forall_forall. intros g _. unfold fill_radio.
    destruct (rg_legend g); [|constructor].
    destruct (handle_radio_buttons _ _ _) as [[?|]|?]; repeat constructor.
Qed.

(** X10: a pass of the dispatcher issues at most one command per control
    of the page, and only commands that type a value or choose an
    option. *)
Theorem dispatch_one_command_per_control
    (profile : gmap string pyval) (pg : Page) :
  length (dispatch profile pg) <=
    length (text_fields pg) + length (dropdowns pg) + length (radio_groups pg) /\
  Forall (fun a => is_fill a = true) (dispatch profile pg).
Proof.
  split; [|apply dispatch_fills].
  unfold dispatch. rewrite !length_app.
  pose proof (flat_map_length_le _ (text_fields pg) (fill_text_short profile)).
  pose proof (flat_map_length_le _ (dropdowns pg) (fill_dropdown_short profile)).
  pose proof (flat_map_length_le _ (radio_groups pg) (fill_radio_short profile)).
  lia.
Qed.

(** X11: a file is uploaded only into a file input that is present and
    still empty, and only when the profile holds a non-empty path for it;
    the uploads, at most two, come before every field command of the
    page. *)
Theorem uploads_only_into_empty_inputs
    (profile : gmap string pyval) (pg : Page) :
  (forall path, Upload path ∈ process_page profile pg ->
     truthy path = true /\
     ((exists v, resume_input pg = Some v /\ attr_truthy v = false /\
                 path = get profile "resume_path" (PStr "")) \/
      (exists v, cover_input pg = Some v /\ attr_truthy v = false /\
                 path = get profile "cover_letter_path" (PStr "")))) /\
  (exists uploads,
     process_page profile pg = uploads ++ dispatch profile pg /\
     length uploads <= 2).
Proof.
  pose proof (dispatch_fills profile pg) as Hfill.
  unfold process_page. split.
  - intros path Hin. apply elem_of_app in Hin as [Hin|Hin];
      [|apply elem_of_app in Hin as [Hin|Hin]].
    + unfold upload in Hin. destruct (resume_input pg) as [v|]; [|by inversion Hin].
      destruct (attr_truthy v) eqn:Hv; [by inversion Hin|].
      destruct (truthy _) eqn:Ht; [|by inversion Hin].
      apply list_elem_of_singleton in Hin as [= ->]. split; [done|]. left. eauto.
    + unfold upload in Hin. destruct (cover_input pg) as [v|]; [|by inversion Hin].
      destruct (attr_truthy v) eqn:Hv; [by inversion Hin|].
      destruct (truthy _) eqn:Ht; [|by inversion Hin].
      apply list_elem_of_singleton in Hin as [= ->]. split; [done|]. right. eauto.
    + apply (proj1 (Forall_forall _ _) Hfill) in Hin. done.
  - exists (upload profile (resume_input pg) "resume_path" ++
            upload profile (cover_input pg) "cover_letter_path").
    split; [by rewrite <- app_assoc|].
    assert (forall input key, length (upload profile input key) <= 1) as Hup.
    { intros input key. unfold upload. destruct input as [v|]; [|simpl; lia].
      destruct (attr_truthy v); [simpl; lia|].
      destruct (truthy _); simpl; lia. }
    rewrite length_app.
    pose proof (Hup (resume_input pg) "resume_path").
    pose proof (Hup (cover_input pg) "cover_letter_path").
    lia.
Qed.

Lemma uploads_witness :
  truthy (PStr "/home/me/cv.pdf") = true.
Proof.
  apply (proj1 (uploads_only_into_empty_inputs
                  (<["resume_path" := PStr "/home/me/cv.pdf"]> ∅)
                  {| resume_input := Some None; cover_input := None;
                     text_fields := []; dropdowns := []; radio_groups := [];
                     buttons := [] |}) (PStr "/home/me/cv.pdf")).
  vm_compute. apply list_elem_of_here.
Defined.

End TextAnswers.

(** * Further properties of the page loop *)

Section LoopFacts.
Import PyStr Py Dispatcher Navigation Samples.

(** What holds of every run of the loop, whatever the site shows. *)
Lemma page_loop_general profile pages :
  forall remaining count cur done,
    let r := page_loop profile pages remaining count cur done in
    count <= page_count r <= count + remaining /\
    shown r + issued ClickNext done + issued ClickReview done
      = cur + issued ClickNext (commands r) + issued ClickReview (commands r) /\
    shown r + count <= page_count r + cur /\
    (exists suffix, commands r = done ++ suffix) /\
    ((outcome r = (false, "Max Pages Reached") /\
      issued ClickSubmit (commands r) = issued ClickSubmit done) \/
     (outcome r = (true, "Applied") /\
      truthy (get profile "auto_submit" (PBool false)) = true /\
      only_submit (pages (shown r)) /\
      issued ClickSubmit (commands r) = S (issued ClickSubmit done) /\
      exists pre, commands r = pre ++ [ClickSubmit]) \/
     (outcome r = (true, "Ready to Submit - Confirmation Required") /\
      truthy (get profile "auto_submit" (PBool false)) = false /\
      only_submit (pages (shown r)) /\
      issued ClickSubmit (commands r) = issued ClickSubmit done)).
Proof.
  induction remaining as [|n IH]; intros count cur done.
  - cbn. repeat split; try lia.
    + exists []. by rewrite app_nil_r.
    + by left.
  - cbn [page_loop]. cbv zeta.
    set (filled := done ++ process_page profile (pages cur)).
    assert (forall a, is_navigation a = true -> issued a filled = issued a done)
      as Hfilled.
    { intros a Ha. unfold filled. rewrite issued_app, issued_process by done. lia. }
    destruct (has_button next_selector (pages cur)) eqn:Hn;
      [|destruct (has_button review_selector (pages cur)) eqn:Hr;
        [|destruct (has_button submit_selector (pages cur)) eqn:Hs;
          [destruct (truthy (get profile "auto_submit" (PBool false))) eqn:Ha|]]].
    + destruct (IH (S count) (S cur) (filled ++ [ClickNext]))
        as (Hc & Hsh & Hle & (suffix & Hsuf) & Hout).
      repeat rewrite issued_app in Hsh. repeat rewrite issued_app in Hout.
      repeat rewrite Hfilled in Hsh by done.
      repeat rewrite Hfilled in Hout by done. cbn in Hsh, Hout.
      rewrite !Nat.add_0_r in Hout.
      repeat split; try lia; [|exact Hout].
      exists (process_page profile (pages cur) ++ [ClickNext] ++ suffix).
      rewrite Hsuf. unfold filled. by rewrite <- !app_assoc.
    + destruct (IH (S count) (S cur) (filled ++ [ClickReview]))
        as (Hc & Hsh & Hle & (suffix & Hsuf) & Hout).
      repeat rewrite issued_app in Hsh. repeat rewrite issued_app in Hout.
      repeat rewrite Hfilled in Hsh by done.
      repeat rewrite Hfilled in Hout by done. cbn in Hsh, Hout.
      rewrite !Nat.add_0_r in Hout.
      repeat split; try lia; [|exact Hout].
      exists (process_page profile (pages cur) ++ [ClickReview] ++ suffix).
      rewrite Hsuf. unfold filled. by rewrite <- !app_assoc.
    + cbn [outcome page_count shown commands].
      repeat rewrite issued_app. repeat rewrite Hfilled by done. cbn.
      repeat split; try lia.
      * exists (process_page profile (pages cur) ++ [ClickSubmit]).
        unfold filled. by rewrite <- app_assoc.
      * right. left. repeat split; try done; try lia. by exists filled.
    + cbn [outcome page_count shown commands].
      repeat rewrite Hfilled by done.
      repeat split; try lia.
      * by exists (process_page profile (pages cur)).
      * right. right. by repeat split.
    + cbn [outcome page_count shown commands].
      repeat rewrite Hfilled by done.
      repeat split; try lia.
      * by exists (process_page profile (pages cur)).
      * by left.
Qed.

(** The pages a run has left behind are those on which the
    Continue/Next or the Review probe found a button. *)
Lemma page_loop_forward_pages profile pages :
  forall remaining count cur done n,
    cur <= n < shown (page_loop profile pages remaining count cur done) ->
    has_button next_selector (pages n) = true \/
    has_button review_selector (pages n) = true.
Proof.
  induction remaining as [|m IH]; intros count cur done n; [cbn; lia|].
  cbn [page_loop]. cbv zeta.
  destruct (has_button next_selector (pages cur)) eqn:Hn;
    [|destruct (has_button review_selector (pages cur)) eqn:Hr;
      [|destruct (has_button submit_selector (pages cur));
        [destruct (truthy _)|]]];
    try (cbn; lia).
  - intros Hlt. destruct (decide (n = cur)) as [->|Hne]; [by left|].
    eapply IH. split; [|apply Hlt]. lia.
  - intros Hlt. destruct (decide (n = cur)) as [->|Hne]; [by right|].
    eapply IH. split; [|apply Hlt]. lia.
Qed.

Lemma forward_button_avoids_submit pg :
  submit_distinct pg = true ->
  has_button next_selector pg = true \/ has_button review_selector pg = true ->
  exists aria_label,
    forward_button pg = Some aria_label /\
    In aria_label (buttons pg) /\
    (next_selector aria_label = true \/ review_selector aria_label = true) /\
    submit_selector aria_label = false.
Proof.
  intros Hd Hfound. unfold submit_distinct in Hd.
  rewrite forallb_forall in Hd.
  assert (forall l, In l (buttons pg) ->
                    next_selector l = true \/ review_selector l = true ->
                    submit_selector l = false) as Hno.
  { intros l Hin Hsel. specialize (Hd l Hin).
    destruct (submit_selector l); [|done].
    destruct Hsel as [Hsel|Hsel]; rewrite Hsel in Hd;
      by rewrite ?orb_true_r in Hd. }
  unfold forward_button, has_button in *.
  destruct (List.find next_selector (buttons pg)) as [l|] eqn:Hfind.
  - apply find_some in Hfind as [Hin Hsel]. exists l.
    split; [done|]. split; [done|]. split; [by left|]. apply Hno; auto.
  - destruct Hfound as [Hn|Hr].
    + apply existsb_exists in Hn as (l & Hin & Hsel).
      by rewrite (find_none _ _ Hfind l Hin) in Hsel.
    + apply existsb_exists in Hr as (l & Hin & Hsel).
      destruct (List.find review_selector (buttons pg)) as [l'|] eqn:Hfind'.
      * apply find_some in Hfind' as [Hin' Hsel']. exists l'.
        split; [done|]. split; [done|]. split; [by right|]. apply Hno; auto.
      * by rewrite (find_none _ _ Hfind' l Hin) in Hsel.
Qed.

(** Where no button matches the Submit selector together with one of the
    forward selectors, no button a run clicked to move on matches the
    Submit selector. *)
Lemma forward_clicks_avoid_submit profile job :
  (forall n, submit_distinct (site job n) = true) ->
  forall n, n < shown (fill_linkedin_easy_apply profile job) ->
    exists aria_label,
      forward_button (site job n) = Some aria_label /\
      submit_selector aria_label = false.
Proof.
  intros Hd n. unfold fill_linkedin_easy_apply.
  destruct (open_error job) as [e|]; [cbn; lia|].
  intros Hlt.
  destruct (forward_button_avoids_submit (site job n) (Hd n)) as (l & Hl & _ & _ & Hs).
  { eapply page_loop_forward_pages. split; [|apply Hlt]. lia. }
  eauto.
Qed.

(** X12: without auto-submit in the profile, [fill_linkedin_easy_apply]
    never issues the click of its Submit probe and never reports
    "Applied", whatever pages the site shows.  The buttons it does click
    are the first matches of its Continue/Next and Review probes, on the
    pages it leaves behind; provided no button of the site matches the
    Submit selector together with one of those two selectors, none of
    the buttons it clicks matches the Submit selector. *)
Theorem no_submit_click_without_auto_submit
    (profile : gmap string pyval) (job : Job) :
  truthy (get profile "auto_submit" (PBool false)) = false ->
  let r := fill_linkedin_easy_apply profile job in
  issued ClickSubmit (commands r) = 0 /\
  outcome r <> (true, "Applied") /\
  ((forall n, submit_distinct (site job n) = true) ->
   forall n, n < shown r ->
     exists aria_label,
       forward_button (site job n) = Some aria_label /\
       submit_selector aria_label = false).
Proof.
  intros Hauto. cbv zeta.
  assert (issued ClickSubmit (commands (fill_linkedin_easy_apply profile job)) = 0 /\
          outcome (fill_linkedin_easy_apply profile job) <> (true, "Applied"))
    as [Hnone Hout].
  { unfold fill_linkedin_easy_apply.
    destruct (open_error job) as [e|]; [by cbn|].
    destruct (page_loop_general profile (site job) max_pages 0 0 [])
      as (_ & _ & _ & _ & [[-> ->] | [(_ & Ht & _) | (-> & _ & _ & ->)]]);
      [done | congruence | done]. }
  split; [exact Hnone|]. split; [exact Hout|].
  apply forward_clicks_avoid_submit.
Qed.

Lemma no_submit_click_witness :
  issued ClickSubmit (commands (fill_linkedin_easy_apply ∅ three_page_job)) = 0.
Proof.
  apply (no_submit_click_without_auto_submit ∅ three_page_job). reflexivity.
Defined.

(** X13: a run processes at most ten pages; the page it ends on is the
    number of Continue/Next and Review clicks it issued, which never
    exceeds the number of pages processed. *)
Theorem easy_apply_page_budget (profile : gmap string pyval) (job : Job) :
  let r := fill_linkedin_easy_apply profile job in
  page_count r <= 10 /\
  shown r = issued ClickNext (commands r) + issued ClickReview (commands r) /\
  shown r <= page_count r.
Proof.
  unfold fill_linkedin_easy_apply.
  destruct (open_error job) as [e|]; [cbn; lia|].
  destruct (page_loop_general profile (site job) max_pages 0 0 [])
    as (Hc & Hsh & Hle & _).
  change (issued ClickNext []) with 0 in Hsh.
  change (issued ClickReview []) with 0 in Hsh.
  unfold max_pages in *. cbv zeta. lia.
Qed.

(** X14: what the result of [fill_linkedin_easy_apply] tells.  If the
    dialog does not open it returns the error and issues nothing.
    Whenever it reports success it stopped on a page on which the Submit
    probe found a button and the Continue/Next and Review probes found
    none: the status is "Applied" if auto-submit is set, and then the
    single click of the Submit probe is the last command issued;
    otherwise it is "Ready to Submit - Confirmation Required" and that
    click was not issued.  Whenever it reports "Max Pages Reached" that
    click was not issued either. *)
Theorem easy_apply_outcomes (profile : gmap string pyval) (job : Job) :
  let r := fill_linkedin_easy_apply profile job in
  (forall e, open_error job = Some e ->
     outcome r = (false, "Error: " +:+ e) /\ commands r = []) /\
  (fst (outcome r) = true ->
   only_submit (site job (shown r)) /\
   ((outcome r = (true, "Applied") /\
     truthy (get profile "auto_submit" (PBool false)) = true /\
     issued ClickSubmit (commands r) = 1 /\
     exists pre, commands r = pre ++ [ClickSubmit]) \/
    (outcome r = (true, "Ready to Submit - Confirmation Required") /\
     truthy (get profile "auto_submit" (PBool false)) = false /\
     issued ClickSubmit (commands r) = 0))) /\
  (outcome r = (false, "Max Pages Reached") ->
   issued ClickSubmit (commands r) = 0).
Proof.
  unfold fill_linkedin_easy_apply.
  destruct (open_error job) as [e|].
  - cbn. split; [by intros ? [= ->]|]. by split.
  - split; [done|].
    destruct (page_loop_general profile (site job) max_pages 0 0 [])
      as (_ & _ & _ & _ & [[Ho Hs] | [(Ho & Ht & Hp & Hs & Hl) | (Ho & Ht & Hp & Hs)]]);
      rewrite Ho; cbn [fst].
    + split; [done|]. by intros _.
    + split; [|done]. intros _. split; [done|]. left. by repeat split.
    + split; [|done]. intros _. split; [done|]. right. by repeat split.
Qed.

Lemma easy_apply_outcomes_witness :
  only_submit
    (site three_page_job (shown (fill_linkedin_easy_apply ∅ three_page_job))).
Proof.
  exact (proj1 (proj1 (proj2 (easy_apply_outcomes ∅ three_page_job)) eq_refl)).
Defined.

End LoopFacts.

(** * Further properties of the secondary flow *)

Section MonitorFacts.
Import PyStr Py Samples.

(** What holds of every run of the secondary loop. *)
Lemma for_pages_general config pages :
  forall remaining r,
    let r' := Monitor.for_pages config pages remaining r in
    Monitor.iterations r <= Monitor.iterations r'
      <= Monitor.iterations r + remaining /\
    Monitor.shown r' + issued ClickNext (Monitor.commands r)
      = Monitor.shown r + issued ClickNext (Monitor.commands r') /\
    Monitor.shown r' <= Monitor.shown r + remaining /\
    issued ClickDismiss (Monitor.commands r')
      = issued ClickDismiss (Monitor.commands r) /\
    ((Monitor.status r' = Monitor.status r /\
      Monitor.applied r' = Monitor.applied r /\
      issued ClickSubmit (Monitor.commands r')
        = issued ClickSubmit (Monitor.commands r)) \/
     (Monitor.status r' = "Applied" /\
      Monitor.applied r' = true /\
      truthy (get config "confirm_before_submit" (PBool true)) = false /\
      Monitor.has_button "Submit application" (pages (Monitor.shown r')) = true /\
      issued ClickSubmit (Monitor.commands r')
        = S (issued ClickSubmit (Monitor.commands r)))).
Proof.
  induction remaining as [|n IH]; intros [st ap it sh cs].
  - cbn. repeat split; try lia. by left.
  - cbn [Monitor.for_pages]. cbv zeta.
    cbn [Monitor.status Monitor.applied Monitor.iterations Monitor.shown
         Monitor.commands].
    destruct (Monitor.has_button "Continue to next step" (pages sh)) eqn:Hn;
      [|destruct (Monitor.has_button "Submit application" (pages sh)) eqn:Hs;
        [destruct (truthy (get config "confirm_before_submit" (PBool true)))
           eqn:Hc|]].
    + match goal with
      | |- context [Monitor.for_pages _ _ n ?r0] =>
          destruct (IH r0) as (Hit & Hsh & Hle & Hd & Hout)
      end.
      cbn [Monitor.status Monitor.applied Monitor.iterations Monitor.shown
           Monitor.commands] in *.
      repeat rewrite issued_app in Hsh. repeat rewrite issued_app in Hd.
      repeat rewrite issued_app in Hout.
      cbn in Hsh, Hd, Hout. rewrite !Nat.add_0_r in Hout.
      repeat split; try lia. exact Hout.
    + cbn. repeat split; try lia. by left.
    + cbn [Monitor.status Monitor.applied Monitor.iterations Monitor.shown
           Monitor.commands].
      repeat rewrite issued_app. cbn.
      repeat split; try lia. right. repeat split; try done; lia.
    + cbn. repeat split; try lia. by left.
Qed.

Lemma close_modal_keeps pages r :
  let r' := Monitor.close_modal pages r in
  Monitor.status r' = Monitor.status r /\
  Monitor.applied r' = Monitor.applied r /\
  Monitor.iterations r' = Monitor.iterations r /\
  Monitor.shown r' = Monitor.shown r /\
  issued ClickNext (Monitor.commands r') = issued ClickNext (Monitor.commands r) /\
  issued ClickSubmit (Monitor.commands r')
    = issued ClickSubmit (Monitor.commands r) /\
  issued ClickDismiss (Monitor.commands r')
    <= S (issued ClickDismiss (Monitor.commands r)).
Proof.
  unfold Monitor.close_modal.
  destruct (Monitor.has_button "Dismiss" _);
    cbn [Monitor.status Monitor.applied Monitor.iterations Monitor.shown
         Monitor.commands];
    repeat rewrite issued_app;
    change (issued ClickNext [ClickDismiss]) with 0;
    change (issued ClickSubmit [ClickDismiss]) with 0;
    change (issued ClickDismiss [ClickDismiss]) with 1;
    repeat split; lia.
Qed.

(** X15: unless the configuration sets [confirm_before_submit] to a false
    value, [apply_to_job] never clicks Submit: the job is not recorded as
    applied, and its status afterwards is the one it had or "Manual
    Application Required", never "Applied" unless it was so before. *)
Theorem monitor_confirms_before_submit
    (config : gmap string pyval) (job : Job) (status0 : string) :
  truthy (get config "confirm_before_submit" (PBool true)) = true ->
  let r := Monitor.apply_to_job config job status0 in
  issued ClickSubmit (Monitor.commands r) = 0 /\
  Monitor.applied r = false /\
  (Monitor.status r = status0 \/
   Monitor.status r = "Manual Application Required").
Proof.
  intros Hc. unfold Monitor.apply_to_job.
  destruct (open_error job) as [e|]; [cbn; auto|].
  cbv zeta.
  match goal with
  | |- context [Monitor.close_modal ?pages (Monitor.for_pages ?c ?p ?n ?r0)] =>
      destruct (for_pages_general c p n r0) as (_ & _ & _ & _ & Hout);
      destruct (close_modal_keeps pages (Monitor.for_pages c p n r0))
        as (Hst & Hap & _ & _ & _ & Hsub & _)
  end.
  rewrite Hst, Hap, Hsub.
  destruct Hout as [(-> & -> & ->) | (_ & _ & Hf & _)]; [auto | congruence].
Qed.

Lemma monitor_confirms_witness :
  issued ClickSubmit
    (Monitor.commands (Monitor.apply_to_job ∅ three_page_job "Found")) = 0.
Proof.
  apply (monitor_confirms_before_submit ∅ three_page_job "Found"). reflexivity.
Defined.

(** X16: bounds on a run of [apply_to_job], and what its result tells.
    If the dialog does not open the job is marked "Manual Application
    Required", is not recorded and nothing is clicked.  In every run at
    most five iterations are entered, at most five Continue clicks, one
    Submit click and one Dismiss click are issued.  The job is recorded
    as applied only with [confirm_before_submit] set to a false value,
    after exactly one Submit click on a page showing "Submit
    application", and its status is then "Applied"; a job that is not
    recorded keeps its status or is marked "Manual Application
    Required". *)
Theorem monitor_apply_outcomes
    (config : gmap string pyval) (job : Job) (status0 : string) :
  let r := Monitor.apply_to_job config job status0 in
  (forall e, open_error job = Some e ->
     Monitor.status r = "Manual Application Required" /\
     Monitor.applied r = false /\ Monitor.commands r = []) /\
  Monitor.iterations r <= 5 /\
  issued ClickNext (Monitor.commands r) <= 5 /\
  issued ClickSubmit (Monitor.commands r) <= 1 /\
  issued ClickDismiss (Monitor.commands r) <= 1 /\
  (Monitor.applied r = true ->
   Monitor.status r = "Applied" /\
   truthy (get config "confirm_before_submit" (PBool true)) = false /\
   Monitor.has_button "Submit application" (site job (Monitor.shown r)) = true /\
   issued ClickSubmit (Monitor.commands r) = 1) /\
  (Monitor.applied r = false ->
   Monitor.status r = status0 \/
   Monitor.status r = "Manual Application Required").
Proof.
  unfold Monitor.apply_to_job.
  destruct (open_error job) as [e|].
  { cbn. split; [done|]. repeat split; try lia; try done. auto. }
  split; [done|]. cbv zeta.
  match goal with
  | |- context [Monitor.close_modal ?pages (Monitor.for_pages ?c ?p ?n ?r0)] =>
      destruct (for_pages_general c p n r0) as (Hit & Hsh & Hle & Hd & Hout);
      destruct (close_modal_keeps pages (Monitor.for_pages c p n r0))
        as (Hst & Hap & Hi & Hs & Hn & Hsub & Hdis)
  end.
  rewrite Hst, Hap, Hi, Hs, Hn, Hsub.
  cbn [Monitor.status Monitor.applied Monitor.iterations Monitor.shown
       Monitor.commands] in *.
  change (issued ClickNext []) with 0 in Hsh.
  change (issued ClickSubmit []) with 0 in Hout.
  change (issued ClickDismiss []) with 0 in Hd.
  unfold Monitor.max_pages in *.
  split; [lia|]. split; [lia|].
  destruct Hout as [(-> & -> & ->) | (-> & -> & Hf & Hb & ->)];
    (split; [lia|]); (split; [lia|]); split; try done; auto.
Qed.

Lemma monitor_apply_outcomes_witness :
  Monitor.status (Monitor.apply_to_job ∅ three_page_job "Found") = "Found" \/
  Monitor.status (Monitor.apply_to_job ∅ three_page_job "Found")
    = "Manual Application Required".
Proof.
  apply (monitor_apply_outcomes ∅ three_page_job "Found"). reflexivity.
Defined.

End MonitorFacts.

(** * The Greenhouse flow *)

Section GreenhouseFacts.
Import PyStr Py Resolver Greenhouse.

Lemma greenhouse_fill_field form entry :
  fill_field form entry = [SetValue entry.2] \/ fill_field form entry = [].
Proof.
  destruct entry as [k v]. unfold fill_field, fill_text_field.
  repeat case_bool_decide; auto.
Qed.

Lemma greenhouse_fields_no_submit profile form :
  issued ClickSubmit (flat_map (fill_field form) (fields_map profile)) = 0 /\
  length (flat_map (fill_field form) (fields_map profile)) <= 4.
Proof.
  split.
  - apply issued_none; [done|]. apply Forall_flat_map, Forall_forall.
    intros e _. destruct (greenhouse_fill_field form e) as [-> | ->];
      repeat constructor.
  - change 4 with (length (fields_map profile)). apply flat_map_length_le.
    intros e. destruct (greenhouse_fill_field form e) as [-> | ->]; simpl; lia.
Qed.

(** X17: when the page loads, [fill_greenhouse_application] always
    reports success.  It clicks Submit exactly when the profile sets
    auto-submit and the page has an element with id [submit_app]; that
    single click is then the last command.  It reports "Applied" exactly
    when, in addition, the click does not raise; in every other case,
    also after a Submit click that raised, it reports "Ready to Submit -
    Manual Review Required".  When the page fails to load it reports the
    error and issues nothing. *)
Theorem greenhouse_outcomes
    (profile : gmap string pyval) (form : Form) :
  let r := fill_greenhouse_application profile None form in
  (forall e, fill_greenhouse_application profile (Some e) form
             = ((false, "Error: " +:+ e), [])) /\
  (r.1 = (true, "Applied") \/
   r.1 = (true, "Ready to Submit - Manual Review Required")) /\
  (r.1 = (true, "Applied") <->
   truthy (get profile "auto_submit" (PBool false)) = true /\
   "submit_app" ∈ ids form /\ submit_click_raises form = false) /\
  (truthy (get profile "auto_submit" (PBool false)) = true ->
   "submit_app" ∈ ids form ->
   issued ClickSubmit r.2 = 1 /\ exists pre, r.2 = pre ++ [ClickSubmit]) /\
  (truthy (get profile "auto_submit" (PBool false)) = false \/
   "submit_app" ∉ ids form ->
   issued ClickSubmit r.2 = 0).
Proof.
  split; [done|].
  unfold fill_greenhouse_application. cbv zeta.
  destruct (greenhouse_fields_no_submit profile form) as [Hf _].
  assert (issued ClickSubmit
            (if resume_file_input form then upload_resume profile else []) = 0)
    as Hu.
  { unfold upload_resume. destruct (resume_file_input form); [|done].
    by destruct (truthy _). }
  destruct (truthy (get profile "auto_submit" (PBool false))) eqn:Ha;
    [case_bool_decide as Hs; [destruct (submit_click_raises form) eqn:Hr|]|];
    cbn [andb fst snd].
  - split; [by right|]. split; [split; [done | by intros (_ & _ & ?)]|].
    split; [|by intros [?|?]].
    intros _ _. split; [|eauto]. repeat rewrite issued_app. by rewrite Hf, Hu.
  - split; [by left|]. split; [done|].
    split; [|by intros [?|?]].
    intros _ _. split; [|eauto]. repeat rewrite issued_app. by rewrite Hf, Hu.
  - split; [by right|]. split; [split; [done | by intros (_ & ? & _)]|].
    split; [done|]. intros _. rewrite issued_app. by rewrite Hf, Hu.
  - split; [by right|]. split; [split; [done | by intros (? & _)]|].
    split; [done|]. intros _. rewrite issued_app. by rewrite Hf, Hu.
Qed.

Lemma greenhouse_outcomes_witness :
  issued ClickSubmit
    (fill_greenhouse_application (<["auto_submit" := PBool true]> ∅) None
       {| ids := ["submit_app"]; names := []; resume_file_input := false;
          submit_click_raises := true |}).2 = 1.
Proof.
  apply (greenhouse_outcomes (<["auto_submit" := PBool true]> ∅)
           {| ids := ["submit_app"]; names := []; resume_file_input := false;
              submit_click_raises := true |});
    [reflexivity | apply list_elem_of_here].
Defined.

(** X18: the Greenhouse flow types at most four values, and every value
    it types is the profile's entry for [first_name], [last_name],
    [email] or [phone] exactly as stored (the empty string when absent):
    the phone number is not reduced to its digits here.  A field is typed
    into when, and only when, an element with its name as id or as name
    is on the page. *)
Theorem greenhouse_fields_as_stored
    (profile : gmap string pyval) (form : Form) :
  let typed := flat_map (fill_field form) (fields_map profile) in
  length typed <= 4 /\
  (forall a, a ∈ typed ->
     exists key, key ∈ ["first_name"; "last_name"; "email"; "phone"] /\
                 (key ∈ ids form \/ key ∈ names form) /\
                 a = SetValue (get profile key (PStr ""))) /\
  (forall key, key ∈ ["first_name"; "last_name"; "email"; "phone"] ->
     key ∈ ids form \/ key ∈ names form ->
     SetValue (get profile key (PStr "")) ∈ typed) /\
  (exists rest, (fill_greenhouse_application profile None form).2 = typed ++ rest).
Proof.
  cbv zeta. split; [apply greenhouse_fields_no_submit|].
  assert (forall k v, fill_field form (k, v) =
                      if bool_decide (k ∈ ids form \/ k ∈ names form)
                      then [SetValue v] else []) as Hff.
  { intros k v. unfold fill_field, fill_text_field.
    repeat case_bool_decide; try done; tauto. }
  assert (exists rest,
            (fill_greenhouse_application profile None form).2
            = flat_map (fill_field form) (fields_map profile) ++ rest) as Hrest.
  { unfold fill_greenhouse_application. cbv zeta.
    destruct (truthy _ && bool_decide _); [destruct (submit_click_raises form)|];
      cbn [snd]; [eexists; by rewrite <- app_assoc .. | eauto]. }
  split; [|split; [|exact Hrest]];
    unfold fields_map; cbn [flat_map]; rewrite !Hff, app_nil_r.
  - intros a Ha.
    repeat (apply elem_of_app in Ha as [Ha|Ha]);
      case_bool_decide as Hk; try (by inversion Ha);
      apply list_elem_of_singleton in Ha as ->;
      eexists; (split; [|split; [exact Hk|reflexivity]]);
      rewrite !elem_of_cons; auto.
  - intros key Hkey Hon. rewrite !elem_of_app.
    rewrite !elem_of_cons in Hkey.
    destruct Hkey as [-> | [-> | [-> | [-> | Hkey]]]]; [..|by inversion Hkey].
    + left. rewrite bool_decide_eq_true_2 by done. apply list_elem_of_here.
    + right. left. rewrite bool_decide_eq_true_2 by done. apply list_elem_of_here.
    + right. right. left. rewrite bool_decide_eq_true_2 by done.
      apply list_elem_of_here.
    + right. right. right. rewrite bool_decide_eq_true_2 by done.
      apply list_elem_of_here.
Qed.

End GreenhouseFacts.

(** * Job tracking *)

Section TrackerFacts.
Import PyStr PyText Py Tracker TrackerSamples.

Lemma tracked_spec (url : option string) (found : list JobData) :
  tracked url found = true <-> url ∈ map jd_url found.
Proof.
  unfold tracked. rewrite existsb_exists, list_elem_of_fmap. split.
  - intros (j & Hj & Hu). apply bool_decide_eq_true in Hu.
    exists j. split; [done | by apply list_elem_of_In].
  - intros (j & -> & Hj). exists j.
    split; [by apply list_elem_of_In | by apply bool_decide_eq_true].
Qed.

(** How an application started from a job that is not yet "Applied" can
    end. *)
Lemma apply_to_job_cases config job status0 :
  status0 <> "Applied" ->
  let r := Monitor.apply_to_job config job status0 in
  (Monitor.applied r = false /\ Monitor.status r <> "Applied" /\
   issued ClickSubmit (Monitor.commands r) = 0) \/
  (Monitor.applied r = true /\ Monitor.status r = "Applied" /\
   truthy (get config "confirm_before_submit" (PBool true)) = false).
Proof.
  intros Hne. unfold Monitor.apply_to_job.
  destruct (open_error job) as [e|]; [by left|].
  cbv zeta.
  match goal with
  | |- context [Monitor.close_modal ?pages (Monitor.for_pages ?c ?p ?n ?r0)] =>
      destruct (for_pages_general c p n r0) as (_ & _ & _ & _ & Hout);
      destruct (close_modal_keeps pages (Monitor.for_pages c p n r0))
        as (Hst & Hap & _ & _ & _ & Hsub & _)
  end.
  rewrite Hst, Hap, Hsub.
  destruct Hout as [(-> & -> & ->) | (-> & -> & Hf & _)]; [by left | by right].
Qed.

Lemma fold_left_keeps {A B} (P : A -> Prop) (f : A -> B -> A) (l : list B) (a : A) :
  (forall a b, P a -> P (f a b)) -> P a -> P (fold_left f l a).
Proof.
  intros Hf. revert a. induction l as [|b l IH]; intros a Ha; simpl; [done|].
  by apply IH, Hf.
Qed.

Lemma consistent_snoc st j applied' cl :
  consistent st ->
  jd_url j ∉ map jd_url (jobs_found st) ->
  applied' = (if String.eqb (jd_status j) "Applied"
              then jobs_applied st ++ [j] else jobs_applied st) ->
  consistent {| jobs_found := jobs_found st ++ [j];
                jobs_applied := applied'; clicks := cl |}.
Proof.
  intros [Hnd Happ] Hnew ->. split; cbn [jobs_found jobs_applied].
  - rewrite map_app. apply NoDup_app. repeat split; [done| |apply NoDup_singleton].
    intros u Hu Hu'. apply list_elem_of_singleton in Hu' as ->. done.
  - rewrite List.filter_app, <- Happ. cbn [List.filter].
    destruct (String.eqb (jd_status j) "Applied"); [done|].
    by rewrite app_nil_r.
Qed.

Lemma track_card_consistent w keyword st card :
  consistent st -> consistent (track_card w keyword st card).
Proof.
  intros Hc. unfold track_card.
  destruct (parse_card keyword card) as [j|] eqn:Hp; [|done].
  destruct (tracked (jd_url j) (jobs_found st)) eqn:Ht; [done|].
  assert (jd_url j ∉ map jd_url (jobs_found st)) as Hnew.
  { intros Hin. apply tracked_spec in Hin. congruence. }
  assert (jd_status j = "Found") as Hfound.
  { unfold parse_card in Hp.
    destruct (card_title card) as [[? ?]|], (card_company card),
      (card_location card); try done. by injection Hp as <-. }
  destruct (truthy (auto_apply w) && jd_easy_apply j).
  - cbv zeta.
    destruct (apply_to_job_cases (config w) (posting w (jd_url j)) (jd_status j))
      as [(Ha & Hs & _) | (Ha & Hs & _)]; [by rewrite Hfound|..].
    + rewrite Ha. apply consistent_snoc; [done | done |].
      cbn [jd_status with_status].
      by rewrite (proj2 (String.eqb_neq _ _) Hs).
    + rewrite Ha. apply consistent_snoc; [done | done |].
      cbn [jd_status with_status]. by rewrite Hs.
  - apply consistent_snoc; [done | done |]. by rewrite Hfound.
Qed.

Lemma extends_by_refl n st : extends_by n st st.
Proof. exists []. rewrite app_nil_r. split; [done | simpl; lia]. Qed.

Lemma extends_by_trans n m st st' st'' :
  extends_by n st st' -> extends_by m st' st'' -> extends_by (n + m) st st''.
Proof.
  intros (new & H & Hn) (new' & H' & Hm). exists (new ++ new').
  rewrite H', H, <- app_assoc, length_app. split; [done | lia].
Qed.

Lemma track_card_extends w keyword st card :
  extends_by 1 st (track_card w keyword st card).
Proof.
  unfold track_card.
  destruct (parse_card keyword card) as [j|]; [|apply extends_by_refl].
  destruct (tracked _ _); [apply extends_by_refl|].
  destruct (truthy _ && _); cbv zeta; eexists [_]; by cbn.
Qed.

Lemma track_cards_extend w keyword cards st :
  extends_by (length cards) st (fold_left (track_card w keyword) cards st).
Proof.
  revert st. induction cards as [|card cards IH]; intros st; simpl.
  - apply extends_by_refl.
  - apply (extends_by_trans 1 (length cards) _ (track_card w keyword st card));
      [apply track_card_extends | apply IH].
Qed.

(** X19: a LinkedIn search keeps the tracking lists consistent: no URL
    ends up tracked twice, and the applied jobs remain exactly the
    tracked jobs with status "Applied".  It never drops, changes or
    reorders a job tracked before, and adds at most twenty. *)
Theorem linkedin_search_keeps_tracking_consistent
    (w : World) (keyword location : string) (st : State) :
  consistent st ->
  let st' := search_linkedin_jobs w keyword location st in
  consistent st' /\ extends_by 20 st st'.
Proof.
  intros Hc. unfold search_linkedin_jobs.
  destruct (listing w _) as [cards|]; [|split; [done | apply extends_by_refl]].
  split.
  - apply fold_left_keeps; [|done]. intros a b. apply track_card_consistent.
  - destruct (track_cards_extend w keyword (take 20 cards) st)
      as (new & H & Hn).
    exists new. split; [done|]. rewrite length_take in Hn. lia.
Qed.

Lemma linkedin_search_witness :
  consistent (search_linkedin_jobs applying_world "trade operations" "New York"
                initial).
Proof.
  apply (linkedin_search_keeps_tracking_consistent applying_world
           "trade operations" "New York" initial).
  split; [constructor | reflexivity].
Defined.

Lemma parse_card_fields keyword card j :
  parse_card keyword card = Some j ->
  jd_status j = "Found" /\ jd_source j = "LinkedIn" /\ jd_keyword j = keyword.
Proof.
  unfold parse_card.
  destruct (card_title card) as [[? ?]|], (card_company card),
    (card_location card); try done. by intros [= <-].
Qed.

(** X20: with [auto_apply] off, a LinkedIn search only watches: it opens
    no application, clicks nothing and records no job as applied; every
    job it adds has status "Found", source "LinkedIn" and the keyword
    searched for. *)
Theorem watch_only_search_never_applies
    (w : World) (keyword location : string) (st : State) :
  truthy (auto_apply w) = false ->
  let st' := search_linkedin_jobs w keyword location st in
  jobs_applied st' = jobs_applied st /\
  clicks st' = clicks st /\
  exists new,
    jobs_found st' = jobs_found st ++ new /\
    Forall (fun j => jd_status j = "Found" /\ jd_source j = "LinkedIn" /\
                     jd_keyword j = keyword) new.
Proof.
  intros Hoff. unfold search_linkedin_jobs.
  destruct (listing w _) as [cards|];
    [|repeat split; exists []; by rewrite app_nil_r].
  apply (fold_left_keeps
           (fun st' =>
              jobs_applied st' = jobs_applied st /\ clicks st' = clicks st /\
              exists new,
                jobs_found st' = jobs_found st ++ new /\
                Forall (fun j => jd_status j = "Found" /\
                                 jd_source j = "LinkedIn" /\
                                 jd_keyword j = keyword) new)).
  - intros a card (Ha & Hcl & new & Hf & Hnew). unfold track_card.
    destruct (parse_card keyword card) as [j|] eqn:Hp; [|eauto].
    destruct (tracked _ _); [eauto|].
    rewrite Hoff. cbn [andb jobs_found jobs_applied clicks].
    repeat split; try done. exists (new ++ [j]).
    rewrite Hf, <- app_assoc. split; [done|].
    apply Forall_app_2; [done|]. constructor; [|constructor].
    by apply parse_card_fields in Hp.
  - repeat split. exists []. by rewrite app_nil_r.
Qed.

Lemma watch_only_search_witness :
  clicks (search_linkedin_jobs watching_world "settlements" "New York" initial)
  = [].
Proof.
  apply (watch_only_search_never_applies watching_world "settlements"
           "New York" initial).
  reflexivity.
Defined.


(** X21: after [search_company_website] the careers URL is tracked exactly
    when it was tracked before, or the page loaded and one of the
    keywords occurs in it (case-insensitively).  At most one job is added,
    marked "Manual Review Required" and never as applied, listing the
    matching keywords in configuration order; consistent tracking lists
    stay consistent. *)
Theorem company_page_tracked_on_keyword_match
    (w : World) (company_name careers_url : string) (st : State) :
  let st' := search_company_website w company_name careers_url st in
  (Some careers_url ∈ map jd_url (jobs_found st') <->
   Some careers_url ∈ map jd_url (jobs_found st) \/
   exists page k, careers w careers_url = Some page /\ k ∈ keywords w /\
                  contains (lower k) (lower page) = true) /\
  (st' = st \/
   exists page j,
     careers w careers_url = Some page /\
     jobs_found st' = jobs_found st ++ [j] /\
     jd_url j = Some careers_url /\
     jd_status j = "Manual Review Required" /\
     jd_keyword j =
       join ", " (List.filter (fun k => contains (lower k) (lower page))
                    (keywords w))) /\
  jobs_applied st' = jobs_applied st /\
  clicks st' = clicks st /\
  (consistent st -> consistent st').
Proof.
  unfold search_company_website.
  destruct (careers w careers_url) as [page|] eqn:Hpage.
  2:{ split; [|split; [by left | done]].
      split; [tauto|].
      intros [H | (page & k & Hp & _)]; [done | congruence]. }
  cbv zeta.
  destruct (List.filter _ (keywords w)) as [|k0 ks] eqn:Hfilter.
  { split; [|split; [by left | done]].
    split; [tauto|].
    intros [H | (page' & k & Hp & Hk & Hc)]; [done|].
    injection Hp as <-.
    assert (In k (List.filter (fun k => contains (lower k) (lower page))
                    (keywords w))) as Hin
      by (apply filter_In; split; [by apply list_elem_of_In | done]).
    rewrite Hfilter in Hin. destruct Hin. }
  destruct (tracked (Some careers_url) (jobs_found st)) eqn:Ht.
  { apply tracked_spec in Ht. split; [tauto|]. split; [by left | done]. }
  cbn [jobs_found jobs_applied clicks].
  assert (Some careers_url ∉ map jd_url (jobs_found st)) as Hnew.
  { intros Hin. apply tracked_spec in Hin. congruence. }
  split; [|split; [|split; [done|split; [done|]]]].
  - split; [|intros _; rewrite map_app, elem_of_app; right;
             apply list_elem_of_here].
    intros _. right. exists page, k0. split; [done|].
    assert (In k0 (k0 :: ks)) as Hin by by left.
    rewrite <- Hfilter in Hin. apply filter_In in Hin as [Hin Hc].
    split; [by apply list_elem_of_In | done].
  - right. eexists page, _. rewrite Hfilter. by repeat split.
  - intros Hc. by apply consistent_snoc.
Qed.




End TrackerFacts.

(** * Networking contacts *)

Section NetworkFacts.
Import PyStr PyText Py NetworkFinder NetworkSamples.

Lemma insert_ranked_perm person ranked :
  insert_ranked person ranked ≡ₚ person :: ranked.
Proof.
  induction ranked as [|other rest IH]; simpl; [done|].
  destruct (score other <=? score person)%nat; [done|].
  rewrite IH. apply perm_swap.
Qed.

Lemma sort_ranked_perm people : sort_ranked people ≡ₚ people.
Proof.
  induction people as [|p people IH]; simpl; [done|].
  by rewrite insert_ranked_perm, IH.
Qed.

Lemma insert_ranked_sorted person ranked :
  StronglySorted (fun p q : Person => score q <= score p) ranked ->
  StronglySorted (fun p q : Person => score q <= score p) (insert_ranked person ranked).
Proof.
  induction 1 as [|other rest Hs IH Hall]; simpl.
  - repeat constructor.
  - destruct (score other <=? score person)%nat eqn:E.
    + apply Nat.leb_le in E. constructor; [by constructor|].
      constructor; [done|]. eapply Forall_impl; [exact Hall|].
      intros q Hq. simpl in *. lia.
    + apply Nat.leb_gt in E. constructor; [done|].
      rewrite insert_ranked_perm. constructor; [lia | done].
Qed.

Lemma sort_ranked_sorted people : StronglySorted (fun p q : Person => score q <= score p) (sort_ranked people).
Proof.
  induction people as [|p people IH]; simpl; [constructor|].
  by apply insert_ranked_sorted.
Qed.

Lemma score_of_bound person job_title :
  10 * p_mutual_connections person <= score_of person job_title.
Proof.
  unfold score_of. cbv zeta.
  repeat match goal with
         | |- context [if ?b then _ else _] => destruct b
         end; lia.
Qed.

(** X25: [rank_connections] only reorders the people it is given, after
    setting each one's score: nobody is dropped or added.  The result is
    in order of decreasing score, and a score is at least ten times the
    person's number of mutual connections. *)
Theorem rank_connections_orders_by_score
    (people : list Person) (job_title : string) :
  let ranked := rank_connections people job_title in
  ranked ≡ₚ map (with_score job_title) people /\
  StronglySorted (fun p q => score q <= score p) ranked /\
  Forall (fun p => 10 * p_mutual_connections p <= score p) ranked.
Proof.
  cbv zeta. unfold rank_connections.
  split; [apply sort_ranked_perm|]. split; [apply sort_ranked_sorted|].
  rewrite sort_ranked_perm. apply Forall_fmap, Forall_forall.
  intros p _. unfold compose, score. cbn [with_score p_networking_score
    p_mutual_connections default]. apply score_of_bound.
Qed.

Lemma string_length_app (a b : string) :
  String.length (a +:+ b) = String.length a + String.length b.
Proof. induction a as [|c a IH]; simpl; [done|]. by rewrite IH. Qed.

Lemma substring_prefix_length (n : nat) (s : string) :
  n <= String.length s -> String.length (String.substring 0 n s) = n.
Proof.
  revert s. induction n as [|n IH]; intros [|c s]; simpl; try done; try lia.
  intros H. rewrite IH; [done | lia].
Qed.

(** X26: a connection message never exceeds 295 characters, whatever the
    lengths of the name, title, company and job title: a longer text is
    cut to 292 characters followed by three dots.  No message can be
    generated for a person whose name contains no word (the first-name
    lookup raises), and that is the only failure. *)
Theorem connection_message_fits (person : Person) (job_title : string) :
  (generate_connection_message person job_title = None <->
   first_word (p_name person) = None) /\
  (forall message,
     generate_connection_message person job_title = Some message ->
     String.length message <= 295).
Proof.
  unfold generate_connection_message.
  destruct (first_word (p_name person)) as [first_name|]; cbn [mbind option_bind];
    [|by split].
  split; [by split|].
  intros message [= <-].
  match goal with
  | |- context [(295 <? String.length ?m)%nat] =>
      destruct (295 <? String.length m)%nat eqn:E
  end.
  - apply Nat.ltb_lt in E.
    rewrite string_length_app, substring_prefix_length by lia. simpl. lia.
  - by apply Nat.ltb_ge in E.
Qed.

Lemma connection_message_witness :
  String.length
    (default "" (generate_connection_message long_title_person long_job_title))
  <= 295.
Proof.
  apply (proj2 (connection_message_fits long_title_person long_job_title)).
  by vm_compute.
Defined.

Lemma good_connection_inv person job_title :
  is_good_connection person job_title = true ->
  p_is_connected person = false /\
  contains "recruiter" (lower (p_title person)) = false /\
  contains "talent acquisition" (lower (p_title person)) = false.
Proof.
  unfold is_good_connection. cbv zeta.
  destruct (p_is_connected person); [done|].
  destruct (contains "recruiter" _); [done|].
  by destruct (contains "talent acquisition" _).
Qed.

Lemma extract_person_company card company_name person :
  extract_person_data card company_name = Some person ->
  p_company person = company_name.
Proof.
  unfold extract_person_data.
  destruct (rc_name card) as [[? [?|]]|]; try done.
  destruct (rc_subtitle card); [|done]. by intros [= <-].
Qed.

Section Found.
Variable search : string -> SearchPage.
Variables company_name job_title : string.

Lemma scan_cards_retained max_results cards people_found :
  Forall (retained company_name job_title) people_found ->
  Forall (retained company_name job_title) (scan_cards company_name job_title max_results cards people_found).
Proof.
  unfold scan_cards. apply fold_left_keeps. intros found card Hf.
  destruct (max_results <=? length found)%nat; [done|].
  destruct (extract_person_data card company_name) as [person|] eqn:He; [|done].
  destruct (is_good_connection person job_title) eqn:Hg; [|done].
  apply Forall_app_2; [done|]. constructor; [|constructor].
  split; [done | by apply extract_person_company in He].
Qed.

Lemma run_queries_retained max_results queries people_found result :
  Forall (retained company_name job_title) people_found ->
  run_queries search company_name job_title max_results queries people_found
    = Some result ->
  Forall (retained company_name job_title) result.
Proof.
  revert people_found. induction queries as [|query rest IH];
    intros people_found Hf; simpl.
  - by intros [= <-].
  - destruct (max_results <=? length people_found)%nat; [by intros [= <-]|].
    destruct (search _) as [| |cards]; [done | by apply IH |].
    apply IH. by apply scan_cards_retained.
Qed.

End Found.

Lemma strongly_sorted_take {A} (R : A -> A -> Prop) (n : nat) (l : list A) :
  StronglySorted R l -> StronglySorted R (take n l).
Proof.
  intros Hs. revert n. induction Hs as [|x l Hs IH Hall]; intros [|n]; simpl;
    try constructor; [apply IH | by apply Forall_take].
Qed.

(** X27: [find_people_at_company] returns at most two people, in order of
    decreasing score.  Each of them passed [is_good_connection] for the
    job applied to, so none is already connected and none is a recruiter;
    each carries the company searched for and the score computed for
    them. *)
Theorem find_people_returns_ranked_good_contacts
    (search : string -> SearchPage) (company_name job_title : string)
    (department_hint : option string) (max_results : nat) :
  let people :=
    find_people_at_company search company_name job_title department_hint
      max_results in
  length people <= 2 /\
  StronglySorted (fun p q => score q <= score p) people /\
  Forall (fun p =>
            is_good_connection p job_title = true /\
            p_is_connected p = false /\
            contains "recruiter" (lower (p_title p)) = false /\
            p_company p = company_name /\
            p_networking_score p = Some (score_of p job_title)) people.
Proof.
  cbv zeta. unfold find_people_at_company.
  destruct (run_queries _ _ _ _ _ _) as [found|] eqn:Hrun.
  2:{ repeat split; [simpl; lia | constructor | constructor]. }
  split; [rewrite length_take; lia|].
  split; [apply strongly_sorted_take, sort_ranked_sorted|].
  apply Forall_take. unfold rank_connections. rewrite sort_ranked_perm.
  apply Forall_fmap.
  eapply Forall_impl;
    [exact (run_queries_retained search company_name job_title _ _ _ _
              (Forall_nil_2 _) Hrun)|].
  intros p [Hg Hc]. unfold compose.
  change (is_good_connection (with_score job_title p) job_title)
    with (is_good_connection p job_title).
  change (score_of (with_score job_title p) job_title)
    with (score_of p job_title).
  cbn [with_score p_is_connected p_title p_company p_networking_score].
  destruct (good_connection_inv _ _ Hg) as (H1 & H2 & _). by repeat split.
Qed.

End NetworkFacts.

(** * The integrated monitor *)

Section IntegratedFacts.
Import PyStr PyText Py Navigation Integrated NetworkSamples.


Section WithPeople.
Context {Person : Type} (person_name : Person -> string).

Lemma apply_and_network_url (w : World Person) job_data :
  jd_url (job (apply_and_network person_name w job_data)) = jd_url job_data.
Proof.
  unfold apply_and_network. cbv zeta.
  destruct (outcome _) as [[|] status]; [|done].
  destruct (truthy _); [|done].
  by destruct (find_contacts w _) as [[|? ?]|?].
Qed.


(** Nothing was added to the lists. *)
Local Ltac unchanged :=
  repeat split; try done; exists []; rewrite app_nil_r;
  first [done | split; [done | simpl; lia]].

(** X24: a search of the integrated monitor never tracks a URL twice and
    keeps [jobs_applied] a sub-list of [jobs_found].  It adds at most
    twenty jobs, and the jobs, applied jobs and contacts recorded before
    all stay where they were. *)
Theorem integrated_search_tracking
    (w : World Person) (keyword location : string) (st : State Person) :
  NoDup (map jd_url (jobs_found st)) ->
  jobs_applied st `sublist_of` jobs_found st ->
  let st' := search_linkedin_jobs person_name w keyword location st in
  NoDup (map jd_url (jobs_found st')) /\
  jobs_applied st' `sublist_of` jobs_found st' /\
  (exists new, jobs_found st' = jobs_found st ++ new /\ length new <= 20) /\
  (exists more, jobs_applied st' = jobs_applied st ++ more) /\
  (exists more, networking_contacts st' = networking_contacts st ++ more).
Proof.
  intros Hnd Hsub. cbv zeta. unfold search_linkedin_jobs.
  destruct (listing w _) as [cards|].
  2:{ unchanged. }
  assert (length (take 20 cards) <= 20) as Hlen by (rewrite length_take; lia).
  revert Hlen. generalize (take 20 cards) as l. clear cards. intros l.
  generalize 20 as n. revert st Hnd Hsub.
  induction l as [|card l IH]; intros st Hnd Hsub n Hlen; simpl.
  { unchanged. }
  simpl in Hlen.
  assert (let st1 := track_card person_name w keyword st card in
          NoDup (map jd_url (jobs_found st1)) /\
          jobs_applied st1 `sublist_of` jobs_found st1 /\
          (exists new, jobs_found st1 = jobs_found st ++ new /\ length new <= 1) /\
          (exists more, jobs_applied st1 = jobs_applied st ++ more) /\
          (exists more, networking_contacts st1 = networking_contacts st ++ more))
    as (Hnd1 & Hsub1 & (new1 & Hf1 & Hn1) & (a1 & Ha1) & (c1 & Hc1)).
  { cbv zeta. unfold track_card.
    destruct (Tracker.parse_card keyword card) as [j|];
      [|unchanged].
    destruct (Tracker.tracked (jd_url j) (jobs_found st)) eqn:Ht;
      [unchanged|].
    assert (jd_url j ∉ map jd_url (jobs_found st)) as Hnew.
    { intros Hin. apply tracked_spec in Hin. congruence. }
    assert (forall j', jd_url j' = jd_url j ->
                       NoDup (map jd_url (jobs_found st ++ [j']))) as Hnd'.
    { intros j' Hj'. rewrite map_app. apply NoDup_app.
      repeat split; [done| |apply NoDup_singleton].
      intros u Hu Hu'. apply list_elem_of_singleton in Hu' as ->.
      simpl in Hu. by rewrite Hj' in Hu. }
    destruct (truthy (auto_apply w) && jd_easy_apply j).
    - cbv zeta. cbn [jobs_found jobs_applied networking_contacts].
      split; [apply Hnd', apply_and_network_url|].
      split; [|split; [eexists [_]; by cbn|split; [|eauto]]].
      + destruct (recorded _); [by apply sublist_app|by apply sublist_inserts_r].
      + destruct (recorded _); [eauto|]. exists []. by rewrite app_nil_r.
    - cbn [jobs_found jobs_applied networking_contacts].
      split; [by apply Hnd'|].
      split; [by apply sublist_inserts_r|].
      split; [eexists [_]; by cbn|].
      split; exists []; by rewrite app_nil_r. }
  destruct (IH _ Hnd1 Hsub1 (pred n) ltac:(lia))
    as (Hnd2 & Hsub2 & (new2 & Hf2 & Hn2) & (a2 & Ha2) & (c2 & Hc2)).
  split; [done|]. split; [done|]. split; [|split].
  - exists (new1 ++ new2). rewrite Hf2, Hf1, <- app_assoc, length_app.
    split; [done | lia].
  - exists (a1 ++ a2). by rewrite Ha2, Ha1, <- app_assoc.
  - exists (c1 ++ c2). by rewrite Hc2, Hc1, <- app_assoc.
Qed.

End WithPeople.


Lemma find_people_short search company_name job_title department_hint max_results :
  length (NetworkFinder.find_people_at_company search company_name job_title
            department_hint max_results) <= 2.
Proof.
  unfold NetworkFinder.find_people_at_company.
  destruct (NetworkFinder.run_queries _ _ _ _ _ _);
    [rewrite length_take; lia | simpl; lia].
Qed.

Lemma no_message_without_first_name person job_title :
  NetworkFinder.first_word (NetworkFinder.p_name person) = None ->
  NetworkFinder.generate_connection_message person job_title = None.
Proof. unfold NetworkFinder.generate_connection_message. by intros ->. Qed.

Lemma integrated_search_witness :
  NoDup (map jd_url
           (jobs_found
              (search_linkedin_jobs NetworkFinder.p_name
                 (integrated_world named_results) "trade operations" "New York"
                 initial))).
Proof.
  apply (integrated_search_tracking NetworkFinder.p_name
           (integrated_world named_results) "trade operations" "New York"
           initial); constructor.
Defined.

(** X28: when one of the at most two contacts found for a job has a name
    without any word, no message can be generated for that person; the
    summary loop of [find_and_save_networking_contacts] then raises a
    [KeyError], and the integrated workflow marks the job
    "Error: 'connection_message'" although its application went through
    and it stays recorded in [jobs_applied]; no contact is recorded. *)
Theorem nameless_contact_marks_job_as_error
    (search : string -> NetworkFinder.SearchPage)
    (w : World NetworkFinder.Person) (job_data : JobData) :
  find_contacts w = NetworkFinder.find_and_save_networking_contacts search ->
  truthy (get (config w) "find_networking_contacts" (PBool true)) = true ->
  fst (outcome (fill_linkedin_easy_apply (profile w)
                  (posting w (jd_url job_data)))) = true ->
  (exists person,
     person ∈ NetworkFinder.find_people_at_company search
                (jd_company job_data) (jd_title job_data)
                (NetworkFinder.department_hint_of (jd_title job_data)) 5 /\
     NetworkFinder.first_word (NetworkFinder.p_name person) = None) ->
  let a := apply_and_network NetworkFinder.p_name w job_data in
  recorded a = true /\
  jd_status (job a) = "Error: 'connection_message'" /\
  contacts a = [] /\
  jd_contacts_found (job a) = jd_contacts_found job_data.
Proof.
  intros Hfind Hnet Hok (person & Hin & Hblank). cbv zeta.
  unfold apply_and_network. cbv zeta.
  destruct (outcome _) as [success status]. cbn in Hok. subst success.
  rewrite Hnet, Hfind.
  unfold NetworkFinder.find_and_save_networking_contacts. cbv zeta.
  cbn [jd_company jd_title with_status].
  set (people := NetworkFinder.find_people_at_company _ _ _ _ _) in *.
  assert (take 2 people = people) as Htake.
  { apply take_ge, find_people_short. }
  rewrite Htake.
  assert (forallb
            (fun person0 =>
               bool_decide
                 (is_Some (NetworkFinder.generate_connection_message person0
                             (jd_title job_data)))) people = false) as ->.
  { apply not_true_is_false. intros Hall.
    rewrite forallb_forall in Hall.
    specialize (Hall person (proj1 (list_elem_of_In _ _) Hin)).
    apply bool_decide_eq_true in Hall as [m Hm].
    apply (no_message_without_first_name person (jd_title job_data)) in Hblank.
    congruence. }
  by cbn.
Qed.

Lemma nameless_contact_witness :
  jd_status (job (apply_and_network NetworkFinder.p_name
                    (integrated_world nameless_results) analyst_job))
  = "Error: 'connection_message'".
Proof.
  apply (nameless_contact_marks_job_as_error nameless_results
           (integrated_world nameless_results) analyst_job);
    [reflexivity | reflexivity | reflexivity |].
  eexists. split; [vm_compute; apply list_elem_of_here | reflexivity].
Defined.

End IntegratedFacts.
